(** * last-minute-app: access rules, the clients page and the booking page

    Three parts of the repository are embedded here.

    - [Firestore]: the security rules file ([firestore.rules], rules
      version 2): its helper functions and every [match] block, evaluated
      on a request, the stored document it addresses and the database the
      rules may look into with [exists] and [get].
    - [ClientsPage]: the grouping loop of [fetchClients] and the search
      filter [filteredClients] in [src/app/dashboard/clients/page.tsx].
    - [BookingPage]: the handlers of [BookingForm] on the booking page:
      [fetchProviderData], [handleBookingSubmit] and the form schema. *)

From Stdlib Require Import ZArith Lia Ascii.
From stdpp Require Import gmap strings list.

Local Open Scope Z_scope.

(* ===================================================================== *)
(** ** The security rules *)
(* ===================================================================== *)

Module Firestore.

(** Field values of a document.  The rules only compare fields with
    strings and with [null]; the other constructors stand for the values a
    field may hold besides. *)
Inductive value : Type :=
  | VNull
  | VString (s : string)
  | VBool (b : bool)
  | VNumber (n : Z).

Definition value_eqb (a b : value) : bool :=
  match a, b with
  | VNull, VNull => true
  | VString s, VString t => String.eqb s t
  | VBool x, VBool y => Bool.eqb x y
  | VNumber x, VNumber y => Z.eqb x y
  | _, _ => false
  end.

(** The [data] of a document: field name to value. *)
Abbreviation Doc := (gmap string value).

(** A document path below [/databases/{database}/documents]. *)
Abbreviation Path := (list string).

(** [request.auth.token]: the claims of the caller's token, of which the
    email is kept; an account without email has [null] there. *)
Record Token : Type := { email : option string }.

(** [request.auth]: absent ([null]) for an unauthenticated caller; for an
    authenticated one an object with the two properties [uid] and
    [token]. *)
Record Auth : Type := { uid : string; token : Token }.

(** The five request methods; [read] and [write] in an [allow] statement
    are the groups get+list and create+update+delete.  A list (a query
    over a collection) is judged, like a get, on the path and the content
    of a document it may return. *)
Inductive Method : Type := Get | List | Create | Update | Delete.

Inductive RuleMethod : Type :=
  | read | write | get_ | list_ | create | update | delete_.

Definition covers (r : RuleMethod) (m : Method) : bool :=
  match r, m with
  | read, (Get | List) => true
  | write, (Create | Update | Delete) => true
  | get_, Get => true
  | list_, List => true
  | create, Create => true
  | update, Update => true
  | delete_, Delete => true
  | _, _ => false
  end.

(** [request]: the caller, the method and, for a write, the proposed
    document [request.resource]. *)
Record Request : Type := {
  request_auth : option Auth;
  request_method : Method;
  request_resource : option Doc
}.

(** Evaluating an expression of the rules yields a value or fails (a
    field of [null], a field the document does not have).  A condition
    that fails does not grant. *)
Inductive outcome (A : Type) : Type :=
  | Val (a : A)
  | Err.
Arguments Val {A} a.
Arguments Err {A}.

(** [a && b] and [a || b], evaluated left to right with short circuit. *)
Definition andR (a b : outcome bool) : outcome bool :=
  match a with
  | Val true => b
  | Val false => Val false
  | Err => Err
  end.

Definition orR (a b : outcome bool) : outcome bool :=
  match a with
  | Val true => Val true
  | Val false => b
  | Err => Err
  end.

(** [a == b] and [a != b] on values. *)
Definition eqR (a b : outcome value) : outcome bool :=
  match a, b with
  | Val x, Val y => Val (value_eqb x y)
  | _, _ => Err
  end.

Definition neqR (a b : outcome value) : outcome bool :=
  match a, b with
  | Val x, Val y => Val (negb (value_eqb x y))
  | _, _ => Err
  end.

Declare Scope rules_scope.
Delimit Scope rules_scope with R.
(** [==] and [!=] bind tighter than [&&], which binds tighter than [||]. *)
Notation "a && b" := (andR a b) : rules_scope.
Notation "a || b" := (orR a b) : rules_scope.
Infix "==" := eqR (at level 30, no associativity) : rules_scope.
Infix "!=" := neqR (at level 30, no associativity) : rules_scope.

Definition null : outcome value := Val VNull.
Definition str (s : string) : outcome value := Val (VString s).

(** [d.data.f] for a document [d] that may be [null]. *)
Definition field (d : option Doc) (f : string) : outcome value :=
  match d with
  | Some fields =>
      match fields !! f with
      | Some v => Val v
      | None => Err
      end
  | None => Err
  end.

(** One [allow <methods>: if <condition>;] statement. *)
Record Allow : Type := allow {
  methods : list RuleMethod;
  condition : outcome bool
}.

Section Rules.

(** The stored documents, by path. *)
Variable database : gmap Path Doc.
Variable request : Request.
(** [resource]: the stored document the request addresses, [null] when
    there is none (as in a create). *)
Variable resource : option Doc.

Local Open Scope rules_scope.

Definition request_auth_uid : outcome value :=
  match request_auth request with
  | Some a => str (uid a)
  | None => Err
  end.

(** [request.auth.email], as the rules write it.  The email is
    [request.auth.token.email]; [request.auth] itself has no property
    [email], so reading it fails to evaluate, as does reading a property
    of [null]. *)
Definition request_auth_email : outcome value :=
  match request_auth request with
  | Some a => Err
  | None => Err
  end.

(** [/databases/$(database)/documents/teamMembers/$(request.auth.uid)] *)
Definition teamMembers_of_caller : outcome Path :=
  match request_auth request with
  | Some a => Val ["teamMembers"%string; uid a]
  | None => Err
  end.

Definition exists_ (p : outcome Path) : outcome bool :=
  match p with
  | Val p => Val (bool_decide (is_Some (database !! p)))
  | Err => Err
  end.

Definition get (p : outcome Path) : option Doc :=
  match p with
  | Val p => database !! p
  | Err => None
  end.

Definition isAuthenticated : outcome bool :=
  Val (bool_decide (is_Some (request_auth request))).

Definition isSalonOwner (salonId : outcome value) : outcome bool :=
  isAuthenticated && request_auth_uid == salonId.

Definition isTeamMember (salonId : outcome value) : outcome bool :=
  isAuthenticated &&
  exists_ teamMembers_of_caller &&
  field (get teamMembers_of_caller) "salonId" == salonId.

Definition hasTeamMemberRecord : outcome bool :=
  isAuthenticated && exists_ teamMembers_of_caller.

Definition hasSalonAccess (salonId : outcome value) : outcome bool :=
  isSalonOwner salonId || isTeamMember salonId.

Definition isPlatformAdmin : outcome bool :=
  isAuthenticated &&
  (request_auth_email == str "ameet@gofisherman.com" ||
   request_auth_email == str "ameetk96@gmail.com").

(** The [match] blocks on a document of a collection. *)

Definition salons (salonId : string) : list Allow :=
  [ allow [read; write] (isAuthenticated && request_auth_uid == str salonId);
    allow [read]
      (isAuthenticated &&
       exists_ teamMembers_of_caller &&
       field (get teamMembers_of_caller) "salonId" == str salonId);
    allow [read]
      (isAuthenticated &&
       exists_ teamMembers_of_caller &&
       field (get teamMembers_of_caller) "userId" == request_auth_uid &&
       field (get teamMembers_of_caller) "salonId" == str salonId);
    allow [read] (field resource "slug" != null);
    allow [read] isPlatformAdmin;
    allow [read] (Val true) ].

Definition providers : list Allow :=
  [ allow [read; write] (hasSalonAccess (field resource "salonId"));
    allow [create]
      (isAuthenticated &&
       field (request_resource request) "salonId" != null &&
       hasSalonAccess (field (request_resource request) "salonId"));
    allow [read] (Val true);
    allow [read] isPlatformAdmin ].

Definition services : list Allow :=
  [ allow [read; write] (hasSalonAccess (field resource "salonId"));
    allow [create]
      (isAuthenticated &&
       field (request_resource request) "salonId" != null &&
       hasSalonAccess (field (request_resource request) "salonId"));
    allow [read] (Val true);
    allow [read] isPlatformAdmin ].

Definition bookingRequests : list Allow :=
  [ allow [read; write] (hasSalonAccess (field resource "salonId"));
    allow [create] (field (request_resource request) "salonId" != null);
    allow [read] isAuthenticated ].

Definition teamMembers : list Allow :=
  [ allow [read]
      (isAuthenticated &&
       (isSalonOwner (field resource "salonId") ||
        request_auth_uid == field resource "userId"));
    allow [write] (isSalonOwner (field resource "salonId"));
    allow [create]
      (isAuthenticated &&
       field (request_resource request) "salonId" != null &&
       isSalonOwner (field (request_resource request) "salonId")) ].

Definition invitations : list Allow :=
  [ allow [read; write] (isSalonOwner (field resource "salonId"));
    allow [create]
      (isAuthenticated &&
       field (request_resource request) "salonId" != null &&
       isSalonOwner (field (request_resource request) "salonId")) ].

(** [loyaltyPrograms], [customerPasses], [visitRecords] and [clients]
    carry the same two statements. *)
Definition salonScoped : list Allow :=
  [ allow [read; write] (hasSalonAccess (field resource "salonId"));
    allow [create]
      (isAuthenticated &&
       field (request_resource request) "salonId" != null &&
       hasSalonAccess (field (request_resource request) "salonId")) ].

Definition loyaltyPrograms : list Allow := salonScoped.
Definition customerPasses : list Allow := salonScoped.
Definition visitRecords : list Allow := salonScoped.
Definition clients : list Allow := salonScoped.

Definition shiftChangeRequests : list Allow :=
  [ allow [read; write] (hasSalonAccess (field resource "salonId"));
    allow [read]
      (isAuthenticated && field resource "providerId" == request_auth_uid);
    allow [create]
      (isAuthenticated &&
       field (request_resource request) "salonId" != null &&
       hasSalonAccess (field (request_resource request) "salonId")) ].

(** [sessionTracking] and [sessions] documents. *)
Definition sessionTracking : list Allow :=
  [ allow [create] (Val true);
    allow [read; write]
      (isAuthenticated &&
       field resource "salonId" != null &&
       hasSalonAccess (field resource "salonId")) ].

Definition sessions : list Allow := sessionTracking.

(** The [match] blocks on a bare collection name ([match /salons],
    [match /providers], [match /services]; [match /bookingRequests],
    [match /teamMembers], [match /shiftChangeRequests]; [match /sessions]).
    A pattern stands for the path of a document, and the name of a
    collection is the path of none: a list over a collection is judged
    on the block of its documents, and no request reaches these
    statements. *)
Definition list_public : list Allow :=
  [ allow [list_] (Val true || isPlatformAdmin) ].
Definition list_authenticated : list Allow :=
  [ allow [list_] isAuthenticated ].
Definition list_sessions : list Allow :=
  [ allow [list_] (Val true) ].

(** Every [allow] statement of the blocks whose pattern matches the
    document path [path]. *)
Definition statements (path : Path) : list Allow :=
  match path with
  | [collection; docId] =>
      if String.eqb collection "salons" then salons docId
      else if String.eqb collection "providers" then providers
      else if String.eqb collection "services" then services
      else if String.eqb collection "bookingRequests" then bookingRequests
      else if String.eqb collection "teamMembers" then teamMembers
      else if String.eqb collection "invitations" then invitations
      else if String.eqb collection "loyaltyPrograms" then loyaltyPrograms
      else if String.eqb collection "customerPasses" then customerPasses
      else if String.eqb collection "visitRecords" then visitRecords
      else if String.eqb collection "clients" then clients
      else if String.eqb collection "shiftChangeRequests"
        then shiftChangeRequests
      else if String.eqb collection "sessionTracking" then sessionTracking
      else if String.eqb collection "sessions" then sessions
      else []
  | _ => []
  end.

Definition holds (c : outcome bool) : bool :=
  match c with
  | Val true => true
  | _ => false
  end.

Definition grants (a : Allow) : bool :=
  (existsb (fun r => covers r (request_method request)) (methods a)
   && holds (condition a))%bool.

(** A request is allowed when some statement that covers its method has
    a condition that holds; with no such statement it is denied. *)
Definition allowed (path : Path) : bool :=
  existsb grants (statements path).

End Rules.

(** *** Who the caller is to a document *)

(** The caller's identity is the [salonId] of [d]: the salon's owner. *)
Definition owner_of (request : Request) (d : Doc) : Prop :=
  exists a, request_auth request = Some a /\
            d !! "salonId"%string = Some (VString (uid a)).

(** The caller has a team member record, stored under the caller's
    identity, whose [salonId] is the [salonId] of [d]. *)
Definition member_of (database : gmap Path Doc) (request : Request) (d : Doc)
  : Prop :=
  exists a record v,
    request_auth request = Some a /\
    database !! ["teamMembers"%string; uid a] = Some record /\
    record !! "salonId"%string = Some v /\
    d !! "salonId"%string = Some v.

(** The document a request is judged on: a create addresses no stored
    document and proposes [d]; every other method addresses the stored
    document [d]. *)
Definition judged_on (request : Request) (resource : option Doc) (d : Doc)
  : Prop :=
  match request_method request with
  | Create => resource = None /\ request_resource request = Some d
  | _ => resource = Some d
  end.

(** The caller's email is one of the two written into the rules. *)
Definition designated (request : Request) : Prop :=
  exists a, request_auth request = Some a /\
            (email (token a) = Some "ameet@gofisherman.com"%string \/
             email (token a) = Some "ameetk96@gmail.com"%string).

(** The collections whose documents have no [list] statement of their own
    and no block on the bare collection name. *)
Definition unlisted : list string :=
  ["invitations"; "loyaltyPrograms"; "customerPasses"; "visitRecords";
   "clients"]%string.

(** *** Further relations of a caller to a document *)

(** Field [f] of [d] holds the caller's identity. *)
Definition named_by (request : Request) (d : Doc) (f : string) : Prop :=
  exists a, request_auth request = Some a /\
            d !! f = Some (VString (uid a)).

(** The [salonId] of [d] is not [null]. *)
Definition names_a_salon (d : Doc) : Prop :=
  d !! "salonId"%string <> Some VNull.

(** The request with the email of the caller's token replaced. *)
Definition with_email (e : option string) (request : Request) : Request :=
  {| request_auth :=
       match request_auth request with
       | Some a => Some {| uid := uid a; token := {| email := e |} |}
       | None => None
       end;
     request_method := request_method request;
     request_resource := request_resource request |}.

(** The collections whose first statement is
    [allow read, write: if hasSalonAccess(resource.data.salonId)] and whose
    [create] statement asks for [hasSalonAccess] of the proposed
    [salonId]. *)
Definition managed : list string :=
  ["providers"; "services"; "loyaltyPrograms"; "customerPasses";
   "visitRecords"; "clients"; "shiftChangeRequests"]%string.

(** The collections with a block on their documents. *)
Definition collections : list string :=
  ["salons"; "providers"; "services"; "bookingRequests"; "teamMembers";
   "invitations"; "loyaltyPrograms"; "customerPasses"; "visitRecords";
   "clients"; "shiftChangeRequests"; "sessionTracking"; "sessions"]%string.

(** The collections whose documents carry the [salonId] of their salon:
    all but [salons] itself. *)
Definition salon_data : list string :=
  ["providers"; "services"; "bookingRequests"; "teamMembers";
   "invitations"; "loyaltyPrograms"; "customerPasses"; "visitRecords";
   "clients"; "shiftChangeRequests"; "sessionTracking"; "sessions"]%string.

(** *** Sample callers and documents *)

(** An unauthenticated caller. *)
Definition anonymous (m : Method) : Request :=
  {| request_auth := None; request_method := m; request_resource := None |}.

(** The database in which user [u1] has a team member record of salon
    [s1]. *)
Definition staffed : gmap Path Doc :=
  {[ ["teamMembers"; "u1"]%string :=
       {[ "salonId"%string := VString "s1";
          "userId"%string := VString "u1" ]} ]}.

Definition caller (u : string) (m : Method) (proposed : option Doc)
  : Request :=
  {| request_auth := Some {| uid := u; token := {| email := None |} |};
     request_method := m;
     request_resource := proposed |}.

Definition anonymous_proposing (d : Doc) : Request :=
  {| request_auth := None;
     request_method := Create;
     request_resource := Some d |}.

(** A document of salon [s1]. *)
Definition of_s1 : Doc := {[ "salonId"%string := VString "s1" ]}.

(** The record of member [u1] of salon [s1]. *)
Definition record_u1 : Doc :=
  {[ "salonId"%string := VString "s1"; "userId"%string := VString "u1" ]}.

End Firestore.

(* ===================================================================== *)
(** ** The clients page *)
(* ===================================================================== *)

Module ClientsPage.

(** A [Date] is its time value: milliseconds since the epoch. *)
Abbreviation Date := Z.

(** [String.prototype.toLowerCase] on the ASCII letters [A] to [Z]; every
    other character is left as it is.  Apart from the examples on ASCII
    text, the theorems use nothing of it but that it is a function and
    leaves the empty string empty. *)
Definition lower (c : ascii) : ascii :=
  let n := nat_of_ascii c in
  if ((65 <=? n)%nat && (n <=? 90)%nat)%bool then ascii_of_nat (n + 32) else c.

Fixpoint toLowerCase (s : string) : string :=
  match s with
  | EmptyString => EmptyString
  | String c s' => String (lower c) (toLowerCase s')
  end.

Inductive Status : Type :=
  | pending | contacted | booked | not_booked | provider_requested.

Definition Status_eqb (a b : Status) : bool :=
  match a, b with
  | pending, pending | contacted, contacted | booked, booked
  | not_booked, not_booked | provider_requested, provider_requested => true
  | _, _ => false
  end.

Module BookingRequest.
Record t : Type := {
  id : string;
  clientName : string;
  clientEmail : string;
  clientPhone : string;
  service : string;
  stylistPreference : string;
  dateTimePreference : string;
  notes : option string;
  waitlistOptIn : bool;
  status : Status;
  salonId : string;
  submittedByProvider : option bool;
  providerId : option string;
  providerName : option string;
  createdAt : Date;
  updatedAt : Date
}.
End BookingRequest.

Module Client.
Record t : Type := {
  id : string;
  name : string;
  email : string;
  phone : string;
  totalRequests : Z;
  completedRequests : Z;
  totalSpent : Z;
  lastRequest : string;
  notes : string;
  requests : list BookingRequest.t
}.
End Client.

(** [Map<string, Client>]: the entries in insertion order, one per key. *)
Abbreviation Map := (list (string * Client.t)).

Definition has (key : string) (m : Map) : bool :=
  existsb (fun e => String.eqb (fst e) key) m.

Fixpoint get (key : string) (m : Map) : option Client.t :=
  match m with
  | [] => None
  | (k, v) :: m' => if String.eqb k key then Some v else get key m'
  end.

(** [set] keeps the position of a key already present and appends a new
    one. *)
Fixpoint set (key : string) (v : Client.t) (m : Map) : Map :=
  match m with
  | [] => [(key, v)]
  | (k, v') :: m' =>
      if String.eqb k key then (key, v) :: m' else (k, v') :: set key v m'
  end.

Definition values (m : Map) : list Client.t := map snd m.

(** [request.notes || ''] *)
Definition notes_or_empty (n : option string) : string :=
  match n with
  | Some s => s
  | None => EmptyString
  end.

(** The key a request is filed under. *)
Definition clientKey (r : BookingRequest.t) : string :=
  toLowerCase (BookingRequest.clientEmail r).

Section Dates.

(** The two date functions of the platform the loop calls:
    [Date.prototype.toString], the text of a date, and [new Date(text)],
    the date a text reads as, [None] when the text does not parse (an
    invalid date). *)
Variable toString : Date -> string.
Variable new_Date : string -> option Date.

(** The object stored under a key seen for the first time. *)
Definition newClient (clientKey : string) (request : BookingRequest.t)
  : Client.t :=
  {| Client.id := clientKey;
     Client.name := BookingRequest.clientName request;
     Client.email := BookingRequest.clientEmail request;
     Client.phone := BookingRequest.clientPhone request;
     Client.totalRequests := 0;
     Client.completedRequests := 0;
     Client.totalSpent := 0;
     Client.lastRequest := toString (BookingRequest.createdAt request);
     Client.notes := notes_or_empty (BookingRequest.notes request);
     Client.requests := [] |}.

(** [requestDate > lastRequestDate]: false when the right-hand date is
    invalid. *)
Definition later (requestDate : Date) (lastRequestDate : option Date)
  : bool :=
  match lastRequestDate with
  | Some l => requestDate >? l
  | None => false
  end.

(** The assignments to the fields of [client] for one request. *)
Definition tally (client : Client.t) (request : BookingRequest.t)
  : Client.t :=
  let requestDate := BookingRequest.createdAt request in
  let lastRequestDate := new_Date (Client.lastRequest client) in
  let isBooked := Status_eqb (BookingRequest.status request) booked in
  {| Client.id := Client.id client;
     Client.name := Client.name client;
     Client.email := Client.email client;
     Client.phone := Client.phone client;
     Client.totalRequests := Client.totalRequests client + 1;
     Client.completedRequests :=
       if isBooked then Client.completedRequests client + 1
       else Client.completedRequests client;
     Client.totalSpent :=
       if isBooked then Client.totalSpent client + 75
       else Client.totalSpent client;
     Client.lastRequest :=
       if later requestDate lastRequestDate
       then toString (BookingRequest.createdAt request)
       else Client.lastRequest client;
     Client.notes := Client.notes client;
     Client.requests := Client.requests client ++ [request] |}.

(** The body of [bookingRequests.forEach].  The client object is shared
    with the map, so the assignments to its fields are writes to the entry
    under [clientKey]. *)
Definition visit (clientMap : Map) (request : BookingRequest.t) : Map :=
  let clientKey := toLowerCase (BookingRequest.clientEmail request) in
  let clientMap :=
    if has clientKey clientMap then clientMap
    else set clientKey (newClient clientKey request) clientMap in
  match get clientKey clientMap with
  | None => clientMap
  | Some client => set clientKey (tally client request) clientMap
  end.

(** [fetchClients], from the fetched list to the argument of
    [setClients]. *)
Definition fetchClients (bookingRequests : list BookingRequest.t)
  : list Client.t :=
  values (fold_left visit bookingRequests []).

End Dates.

(** *** What the page is compared with *)

(** The requests filed under [k], in the order fetched. *)
Definition group (k : string) (rs : list BookingRequest.t)
  : list BookingRequest.t :=
  List.filter (fun r => String.eqb (clientKey r) k) rs.

(** The requests whose [clientEmail] is [e], letter for letter. *)
Definition with_email (e : string) (rs : list BookingRequest.t)
  : list BookingRequest.t :=
  List.filter (fun r => String.eqb (BookingRequest.clientEmail r) e) rs.

Definition bookedOnes (rs : list BookingRequest.t) : list BookingRequest.t :=
  List.filter (fun r => Status_eqb (BookingRequest.status r) booked) rs.

(** The latest [createdAt] of a non-empty list. *)
Fixpoint latest (rs : list BookingRequest.t) : Date :=
  match rs with
  | [] => 0
  | [r] => BookingRequest.createdAt r
  | r :: rs' => Z.max (BookingRequest.createdAt r) (latest rs')
  end.

(** The text of every [createdAt] of [rs] reads back as the same date, to
    the second: [toString] drops the milliseconds. *)
Definition reads_back (toString : Date -> string)
    (new_Date : string -> option Date) (rs : list BookingRequest.t) : Prop :=
  Forall (fun r =>
            new_Date (toString (BookingRequest.createdAt r))
            = Some (1000 * (BookingRequest.createdAt r / 1000)))
         rs.

(** [lastRequest] of [c] is the text of a request of [g] created in the
    second of the latest of [g]. *)
Definition names_latest (toString : Date -> string) (c : Client.t)
    (g : list BookingRequest.t) : Prop :=
  exists r, r ∈ g /\
            Client.lastRequest c = toString (BookingRequest.createdAt r) /\
            BookingRequest.createdAt r / 1000 = latest g / 1000.

Definition keys (m : Map) : list string := map fst m.

(** What the entry [c] under key [k] holds once the requests [g] filed
    under [k] have been visited. *)
Definition tallies (k : string) (c : Client.t) (g : list BookingRequest.t)
  : Prop :=
  Client.id c = k /\
  Client.totalRequests c = Z.of_nat (length g) /\
  Client.requests c = g /\
  Client.completedRequests c = Z.of_nat (length (bookedOnes g)) /\
  Client.totalSpent c = 75 * Client.completedRequests c.

(** The map after the requests [done]: one entry per key met, each with
    the tallies of its group. *)
Definition grouped (m : Map) (done : list BookingRequest.t) : Prop :=
  NoDup (keys m) /\
  (forall k, k ∈ keys m <-> exists r, r ∈ done /\ clientKey r = k) /\
  (forall k c, get k m = Some c -> tallies k c (group k done)).

(** *** Dates for the examples *)

(** The text [toString] gives, in UTC, to the dates of the first ten
    seconds of 1970, and the reading of these texts.  The examples use no
    other date. *)
Definition text_1970 (second : Z) : string :=
  String.append "Thu Jan 01 1970 00:00:0"
    (String (ascii_of_nat (48 + Z.to_nat second))
            " GMT+0000 (Coordinated Universal Time)").

Definition toString_1970 (d : Date) : string :=
  if ((0 <=? d) && (d <? 10000))%bool then text_1970 (d / 1000)
  else EmptyString.

Definition new_Date_1970 (text : string) : option Date :=
  option_map (Z.mul 1000)
    (List.find (fun second => String.eqb (text_1970 second) text)
               [0; 1; 2; 3; 4; 5; 6; 7; 8; 9]).

(** A request with the fields the grouping reads. *)
Definition a_request (i e : string) (s : Status) (t : Date)
  : BookingRequest.t :=
  {| BookingRequest.id := i;
     BookingRequest.clientName := "Ann";
     BookingRequest.clientEmail := e;
     BookingRequest.clientPhone := "555-0100";
     BookingRequest.service := "Haircut";
     BookingRequest.stylistPreference := "";
     BookingRequest.dateTimePreference := "";
     BookingRequest.notes := None;
     BookingRequest.waitlistOptIn := false;
     BookingRequest.status := s;
     BookingRequest.salonId := "s1";
     BookingRequest.submittedByProvider := None;
     BookingRequest.providerId := None;
     BookingRequest.providerName := None;
     BookingRequest.createdAt := t;
     BookingRequest.updatedAt := t |}.

(** Three requests of two clients. *)
Definition three_requests : list BookingRequest.t :=
  [ a_request "r1" "ann@x.com" booked 5000;
    a_request "r2" "bob@x.com" pending 2500;
    a_request "r3" "ann@x.com" contacted 3999 ].

(** Two requests of one client, whose email is written in two ways. *)
Definition two_spellings : list BookingRequest.t :=
  [ a_request "r1" "Ann@x.com" booked 1000;
    a_request "r2" "ann@x.com" pending 2000 ].

(** *** The search box *)

(** [String.prototype.includes]: [sub] occurs somewhere in [s]. *)
Fixpoint includes (s sub : string) : bool :=
  (String.prefix sub s ||
   match s with
   | EmptyString => false
   | String _ s' => includes s' sub
   end)%bool.

(** [filteredClients]: name and email are compared in lower case, the
    phone as typed. *)
Definition filteredClients (clients : list Client.t) (searchQuery : string)
  : list Client.t :=
  List.filter
    (fun client =>
       (includes (toLowerCase (Client.name client)) (toLowerCase searchQuery)
        || includes (toLowerCase (Client.email client))
                    (toLowerCase searchQuery)
        || includes (Client.phone client) searchQuery)%bool)
    clients.

(** *** Totals and order *)

Definition sum_of (f : Client.t -> Z) (cs : list Client.t) : Z :=
  fold_right (fun c acc => f c + acc) 0 cs.

(** The distinct elements of a list, each at its first occurrence. *)
Fixpoint distinct (l : list string) : list string :=
  match l with
  | [] => []
  | x :: l' => x :: List.filter (fun y => negb (String.eqb y x)) (distinct l')
  end.

(** The contact details of [c] are those of the first request of [g]. *)
Definition introduced_by (c : Client.t) (g : list BookingRequest.t) : Prop :=
  match g with
  | [] => False
  | r :: _ =>
      Client.name c = BookingRequest.clientName r /\
      Client.email c = BookingRequest.clientEmail r /\
      Client.phone c = BookingRequest.clientPhone r /\
      Client.notes c = notes_or_empty (BookingRequest.notes r)
  end.

(** Two clients for the search box. *)
Definition ann : Client.t :=
  {| Client.id := "ann@x.com"; Client.name := "Ann Lee";
     Client.email := "Ann@x.com"; Client.phone := "555-0100";
     Client.totalRequests := 1; Client.completedRequests := 0;
     Client.totalSpent := 0; Client.lastRequest := text_1970 1;
     Client.notes := ""; Client.requests := [] |}.

Definition bob : Client.t :=
  {| Client.id := "bob@x.com"; Client.name := "Bob Ray";
     Client.email := "bob@x.com"; Client.phone := "555-0199";
     Client.totalRequests := 1; Client.completedRequests := 0;
     Client.totalSpent := 0; Client.lastRequest := text_1970 2;
     Client.notes := ""; Client.requests := [] |}.

End ClientsPage.

(* ===================================================================== *)
(** ** The booking page *)
(* ===================================================================== *)

Module BookingPage.

(** An entry of [lastMinuteSlots]. *)
Record Slot : Type := {
  id : Z;
  date : string;
  time : string;
  service : string;
  duration : string;
  originalPrice : Z;
  discountPrice : Z;
  expiresIn : string
}.

(** The mock data of the prototype. *)
Definition lastMinuteSlots : list Slot :=
  [ {| id := 1; date := "Today"; time := "2:00 PM"; service := "Haircut";
       duration := "30 min"; originalPrice := 35; discountPrice := 25;
       expiresIn := "2 hours" |};
    {| id := 2; date := "Today"; time := "4:30 PM"; service := "Hair Color";
       duration := "2 hours"; originalPrice := 120; discountPrice := 85;
       expiresIn := "4 hours" |};
    {| id := 3; date := "Tomorrow"; time := "11:00 AM";
       service := "Highlights"; duration := "2.5 hours";
       originalPrice := 150; discountPrice := 110;
       expiresIn := "1 day" |} ]%string.

(** [BookingFormData]: what the form fields hold; an input left empty
    holds the empty string. *)
Record BookingFormData : Type := {
  name : string;
  email : string;
  phone : string;
  notes : string
}.

(** How a call to a lookup service settles: with a record, with [null],
    or by throwing. *)
Inductive settled (A : Type) : Type :=
  | found (a : A)
  | missing
  | thrown.
Arguments found {A} a.
Arguments missing {A}.
Arguments thrown {A}.

(** [!s] for a string: only the empty string is falsy. *)
Definition falsy (s : string) : bool :=
  match s with
  | EmptyString => true
  | String _ _ => false
  end.

(** An object or [null] used as a condition. *)
Definition truthy {A : Type} (o : option A) : bool :=
  match o with
  | Some _ => true
  | None => false
  end.

Section Page.

(** The [Provider] and [Salon] records; of a provider the page reads
    [id], [name] and [salonId]. *)
Variables Provider Salon : Type.
Variable provider_id : Provider -> string.
Variable provider_name : Provider -> string.
Variable provider_salonId : Provider -> string.

(** The test behind [yup.string().email(...)]. *)
Variable is_email : string -> bool.

(** The state of [BookingForm]. *)
Record State : Type := {
  selectedSlot : option Slot;
  isSubmitting : bool;
  provider : option Provider;
  salon : option Salon;
  isProviderSubmission : bool
}.

Definition initial : State :=
  {| selectedSlot := None; isSubmitting := false; provider := None;
     salon := None; isProviderSubmission := false |}.

(** The object handed to [console.log]. *)
Record Logged : Type := {
  data : BookingFormData;
  slot : Slot;
  submittedByProvider : bool;
  providerId : option string;
  providerName : option string
}.

(** What a handler does besides setting state. *)
Inductive effect : Type :=
  | alert (message : string)
  | console_log (booking : Logged)
  | console_error (message : string)
  | reset
  | show_errors.

(** [fetchProviderData] *)
Definition fetchProviderData
    (getProvider : string -> settled Provider)
    (getSalon : string -> settled Salon)
    (st : State) (providerId : string) : State * list effect :=
  match getProvider providerId with
  | found providerData =>
      let st :=
        {| selectedSlot := selectedSlot st; isSubmitting := isSubmitting st;
           provider := Some providerData; salon := salon st;
           isProviderSubmission := isProviderSubmission st |} in
      match getSalon (provider_salonId providerData) with
      | found salonData =>
          ({| selectedSlot := selectedSlot st;
              isSubmitting := isSubmitting st;
              provider := provider st; salon := Some salonData;
              isProviderSubmission := isProviderSubmission st |}, [])
      | missing =>
          ({| selectedSlot := selectedSlot st;
              isSubmitting := isSubmitting st;
              provider := provider st; salon := None;
              isProviderSubmission := isProviderSubmission st |}, [])
      | thrown =>
          ({| selectedSlot := selectedSlot st;
              isSubmitting := isSubmitting st;
              provider := provider st; salon := salon st;
              isProviderSubmission := false |},
           [console_error "Error fetching provider data:"])
      end
  | missing => (st, [])
  | thrown =>
      ({| selectedSlot := selectedSlot st; isSubmitting := isSubmitting st;
          provider := provider st; salon := salon st;
          isProviderSubmission := false |},
       [console_error "Error fetching provider data:"])
  end.

(** The effect on [searchParams]: [param] is
    [searchParams.get('provider')], [null] when the address has no such
    parameter. *)
Definition on_searchParams
    (getProvider : string -> settled Provider)
    (getSalon : string -> settled Salon)
    (st : State) (param : option string) : State * list effect :=
  match param with
  | Some providerId =>
      if falsy providerId then (st, [])
      else
        fetchProviderData getProvider getSalon
          {| selectedSlot := selectedSlot st; isSubmitting := isSubmitting st;
             provider := provider st; salon := salon st;
             isProviderSubmission := true |}
          providerId
  | None => (st, [])
  end.

(** The provider banner above the form:
    [isProviderSubmission && provider && salon]. *)
Definition banner (st : State) : bool :=
  (isProviderSubmission st && truthy (provider st) && truthy (salon st))%bool.

(** A click on a slot: [setSelectedSlot(slot)]. *)
Definition select (st : State) (chosen : Slot) : State :=
  {| selectedSlot := Some chosen; isSubmitting := isSubmitting st;
     provider := provider st; salon := salon st;
     isProviderSubmission := isProviderSubmission st |}.

(** [handleBookingSubmit] *)
Definition handleBookingSubmit (st : State) (d : BookingFormData)
  : State * list effect :=
  match selectedSlot st with
  | None => (st, [])
  | Some selected =>
      if (negb (isProviderSubmission st)
          && (falsy (email d) || falsy (phone d)))%bool
      then (st, [alert "Please fill in all required fields"])
      else
        ({| selectedSlot := None; isSubmitting := false;
            provider := provider st; salon := salon st;
            isProviderSubmission := isProviderSubmission st |},
         [ console_log
             {| data := d; slot := selected;
                submittedByProvider := isProviderSubmission st;
                providerId := option_map provider_id (provider st);
                providerName := option_map provider_name (provider st) |};
           reset;
           alert "Booking request submitted successfully!" ])
  end.

(** [bookingSchema]: name, email and phone are required, the email must
    pass the email test, the notes are free. *)
Definition bookingSchema (d : BookingFormData) : bool :=
  (negb (falsy (name d))
   && (is_email (email d) && negb (falsy (email d)))
   && negb (falsy (phone d)))%bool.

(** [handleSubmit(handleBookingSubmit)] with the schema as resolver: the
    handler runs on the data the schema accepts; otherwise the field
    errors are shown. *)
Definition onSubmit (st : State) (d : BookingFormData)
  : State * list effect :=
  if bookingSchema d then handleBookingSubmit st d else (st, [show_errors]).

(** A submission is accepted by the handler when a slot is selected and,
    unless the form is in provider mode, email and phone are filled in. *)
Definition accepted (st : State) (d : BookingFormData) : Prop :=
  is_Some (selectedSlot st) /\
  (isProviderSubmission st = true \/
   email d <> EmptyString /\ phone d <> EmptyString).

(** The bookings logged among some effects. *)
Definition logged (es : list effect) : list Logged :=
  omap (fun e => match e with console_log b => Some b | _ => None end) es.

End Page.

Arguments initial {Provider Salon}.
Arguments select {Provider Salon} st chosen.
Arguments banner {Provider Salon} st.
Arguments accepted {Provider Salon} st d.
Arguments selectedSlot {Provider Salon} s.
Arguments isSubmitting {Provider Salon} s.
Arguments provider {Provider Salon} s.
Arguments salon {Provider Salon} s.
Arguments isProviderSubmission {Provider Salon} s.

(** The first mock slot, and form data with and without contact
    details. *)
Definition haircut : Slot :=
  {| id := 1; date := "Today"; time := "2:00 PM"; service := "Haircut";
     duration := "30 min"; originalPrice := 35; discountPrice := 25;
     expiresIn := "2 hours" |}.

(** A provider stood for by its id. *)
Definition same (s : string) : string := s.

Definition complete : BookingFormData :=
  {| name := "Ann"; email := "ann@x.com"; phone := "555-0100";
     notes := "" |}.

Definition name_only : BookingFormData :=
  {| name := "Ann"; email := ""; phone := ""; notes := "" |}.

End BookingPage.

(* ===================================================================== *)
(** ** Properties of the security rules *)
(* ===================================================================== *)

Module FirestoreTheory.
Import Firestore.

#[local] Arguments value_eqb : simpl never.

Lemma value_eqb_eq (a b : value) : value_eqb a b = true <-> a = b.
Proof.
  destruct a, b; unfold value_eqb; split; intros H;
    try discriminate; try reflexivity.
  - apply String.eqb_eq in H. now subst.
  - inversion H. apply String.eqb_refl.
  - apply Bool.eqb_prop in H. now subst.
  - inversion H. apply Bool.eqb_reflx.
  - apply Z.eqb_eq in H. now subst.
  - inversion H. apply Z.eqb_refl.
Qed.

Lemma value_eqb_refl (a : value) : value_eqb a a = true.
Proof. now apply value_eqb_eq. Qed.

Lemma value_eqb_sym (a b : value) : value_eqb a b = value_eqb b a.
Proof.
  destruct (value_eqb a b) eqn:E.
  - apply value_eqb_eq in E. subst. symmetry. apply value_eqb_refl.
  - destruct (value_eqb b a) eqn:E'; [|reflexivity].
    apply value_eqb_eq in E'. subst. now rewrite value_eqb_refl in E.
Qed.

Lemma value_eqb_string (s : string) (v : value) :
  value_eqb (VString s) v = true <-> v = VString s.
Proof. rewrite value_eqb_eq. split; congruence. Qed.

Lemma holds_true (c : outcome bool) : holds c = true <-> c = Val true.
Proof. destruct c as [[]|]; simpl; split; congruence. Qed.

(** What the helper functions come to. *)

Lemma isSalonOwner_true request (salonId : outcome value) :
  isSalonOwner request salonId = Val true <->
  exists a, request_auth request = Some a /\ salonId = Val (VString (uid a)).
Proof.
  unfold isSalonOwner, isAuthenticated, request_auth_uid, str.
  destruct (request_auth request) as [a|]; simpl.
  - destruct salonId as [v|]; simpl.
    + split.
      * intros H. exists a. split; [reflexivity|].
        injection H as H. apply value_eqb_string in H. now subst.
      * intros (a' & Ha & Hv). injection Ha as <-. injection Hv as ->.
        now rewrite value_eqb_refl.
    + split; [discriminate|]. intros (a' & _ & Hv). discriminate.
  - split; [discriminate|]. intros (a' & Ha & _). discriminate.
Qed.

Lemma isSalonOwner_field request (d : Doc) :
  isSalonOwner request (field (Some d) "salonId") = Val true <->
  owner_of request d.
Proof.
  rewrite isSalonOwner_true. unfold owner_of, field.
  split; intros (a & Ha & Hv); exists a; (split; [exact Ha|]).
  - destruct (d !! "salonId"%string); congruence.
  - now rewrite Hv.
Qed.

Lemma isTeamMember_true database request (d : Doc) :
  isTeamMember database request (field (Some d) "salonId") = Val true <->
  member_of database request d.
Proof.
  unfold isTeamMember, isAuthenticated, exists_, teamMembers_of_caller, get,
    member_of, field.
  destruct (request_auth request) as [a|]; simpl.
  - destruct (database !! ["teamMembers"%string; uid a]) as [record|] eqn:Hdb;
      simpl.
    + destruct (record !! "salonId"%string) as [v|] eqn:Hr; simpl.
      * destruct (d !! "salonId"%string) as [w|] eqn:Hd; simpl.
        -- split.
           ++ intros H. injection H as H. apply value_eqb_eq in H. subst w.
              exists a, record, v. auto.
           ++ intros (a' & r' & v' & Ha & Hr' & Hv' & Hw').
              injection Ha as <-. rewrite Hdb in Hr'. injection Hr' as <-.
              rewrite Hr in Hv'. injection Hv' as <-. injection Hw' as ->.
              now rewrite value_eqb_refl.
        -- split; [discriminate|].
           intros (a' & r' & v' & _ & _ & _ & Hw'). discriminate.
      * split; [discriminate|].
        intros (a' & r' & v' & Ha & Hr' & Hv' & _).
        injection Ha as <-. rewrite Hdb in Hr'. injection Hr' as <-.
        rewrite Hr in Hv'. discriminate.
    + split; [discriminate|].
      intros (a' & r' & v' & Ha & Hr' & _).
      injection Ha as <-. rewrite Hdb in Hr'. discriminate.
  - split; [discriminate|]. intros (a' & r' & v' & Ha & _). discriminate.
Qed.

Lemma hasSalonAccess_true database request (d : Doc) :
  hasSalonAccess database request (field (Some d) "salonId") = Val true <->
  owner_of request d \/ member_of database request d.
Proof.
  rewrite <- isSalonOwner_field, <- isTeamMember_true.
  unfold hasSalonAccess.
  destruct (isSalonOwner request (field (Some d) "salonId"))
    as [[]|] eqn:Ho; simpl.
  - tauto.
  - split; [auto|]. intros [H|H]; [discriminate|exact H].
  - split; [discriminate|]. intros [H|H]; [discriminate|].
    (* the owner test fails to evaluate only when the field is missing *)
    exfalso. apply isTeamMember_true in H.
    destruct H as (a & record & v & Ha & _ & _ & Hd).
    unfold isSalonOwner, isAuthenticated, request_auth_uid, field in Ho.
    rewrite Ha, Hd in Ho. simpl in Ho. discriminate.
Qed.

Lemma field_request_resource request (d : Doc) :
  request_resource request = Some d ->
  field (request_resource request) "salonId" = field (Some d) "salonId".
Proof. now intros ->. Qed.

(** A guarded ownership test: the two guards of a [create] statement add
    nothing to [isSalonOwner]. *)
Lemma guarded_owner request (d : option Doc) :
  andR (andR (isAuthenticated request) (neqR (field d "salonId") null))
       (isSalonOwner request (field d "salonId")) = Val true <->
  isSalonOwner request (field d "salonId") = Val true.
Proof.
  split.
  - destruct (isAuthenticated request) as [[]|]; simpl; try discriminate.
    destruct (neqR (field d "salonId") null) as [[]|]; simpl;
      try discriminate.
    auto.
  - intros H. pose proof H as H'. apply isSalonOwner_true in H'.
    destruct H' as (a & Ha & Hv).
    rewrite Hv in H |- *. unfold isAuthenticated. rewrite Ha. simpl. exact H.
Qed.

Lemma holds_owner_null request (f : string) :
  holds (isSalonOwner request (field None f)) = false.
Proof.
  unfold isSalonOwner, isAuthenticated, request_auth_uid, field.
  destruct (request_auth request); reflexivity.
Qed.

Lemma holds_access_null database request (f : string) :
  holds (hasSalonAccess database request (field None f)) = false.
Proof.
  unfold hasSalonAccess, isSalonOwner, isTeamMember, isAuthenticated,
    request_auth_uid, field.
  destruct (request_auth request); reflexivity.
Qed.

(** Unfolds [allowed] on a path of a known collection down to the
    statements of block [blk]. *)
Ltac open_rules blk :=
  unfold allowed, statements; cbn [String.eqb Ascii.eqb Bool.eqb];
  unfold blk, grants; cbn [existsb methods condition].

(** The list case of a block whose first statement is
    [allow read, write: if hasSalonAccess(resource.data.salonId)] and whose
    second is a [create]. *)
Ltac by_access Hm :=
  unfold salonScoped, grants; cbn [existsb methods condition];
  rewrite Hm; cbn [covers orb andb];
  rewrite Bool.orb_false_r, holds_true, hasSalonAccess_true;
  split; [intros [H|H]; [now left | right; split; [discriminate | exact H]]
         | intros [H|[_ H]]; [now left | now right]].

(** ** The claims *)

(** C1.  A get or a list on any document of [salons] is allowed, whoever
    the caller is and whatever the document holds: the statement
    [allow read: if true] grants it.  In particular it is allowed to an
    unauthenticated caller. *)
Theorem salons_public_read database request resource (salonId : string) :
  request_auth request = None ->
  covers read (request_method request) = true ->
  allowed database request resource ["salons"%string; salonId] = true.
Proof.
  intros _ Hread. apply existsb_exists.
  exists (allow [read] (Val true)). split.
  - simpl. do 5 right. now left.
  - unfold grants. cbn [methods condition existsb holds]. now rewrite Hread.
Qed.

Lemma salons_public_read_witness :
  allowed ∅ (anonymous Get) (Some ∅) ["salons"%string; "s1"%string] = true.
Proof.
  apply (salons_public_read ∅ (anonymous Get) (Some ∅) "s1");
    reflexivity.
Defined.

(** C2, as the rules have it.  A get, list, update or delete on a stored
    invitation is allowed exactly when the caller is the owner of the salon
    the invitation names ([isSalonOwner], not [hasSalonAccess]), and a
    create exactly when the caller is the owner of the salon the proposed
    invitation names, which requires its [salonId] to be set.  Being a team
    member of that salon grants nothing. *)
Theorem invitations_owner_only database request resource
    (invitationId : string) (d : Doc) :
  judged_on request resource d ->
  allowed database request resource ["invitations"%string; invitationId]
    = true <->
  owner_of request d.
Proof.
  unfold judged_on. intros Hj. open_rules invitations.
  destruct (request_method request); cbn [covers orb andb];
    try (rewrite Hj, Bool.orb_false_r, holds_true;
         apply isSalonOwner_field).
  destruct Hj as [-> Hnew].
  rewrite holds_owner_null, Bool.orb_false_l, Bool.orb_false_r, holds_true.
  rewrite guarded_owner, Hnew. apply isSalonOwner_field.
Qed.

Lemma invitations_owner_only_witness :
  allowed staffed (caller "s1" Get None) (Some of_s1)
    ["invitations"%string; "i1"%string] = true.
Proof.
  apply (invitations_owner_only staffed (caller "s1" Get None) (Some of_s1)
           "i1" of_s1).
  - reflexivity.
  - exists {| uid := "s1"; token := {| email := None |} |}. split; reflexivity.
Defined.

(** C2, as stated, fails: [u1] is a team member of salon [s1], so
    [hasSalonAccess] holds of an invitation of [s1], yet [u1] may neither
    read nor update it. *)
Lemma invitations_deny_team_member :
  hasSalonAccess staffed (caller "u1" Get None) (field (Some of_s1) "salonId")
    = Val true /\
  allowed staffed (caller "u1" Get None) (Some of_s1)
    ["invitations"%string; "i1"%string] = false /\
  allowed staffed (caller "u1" Update (Some of_s1)) (Some of_s1)
    ["invitations"%string; "i1"%string] = false.
Proof. repeat split; vm_compute; reflexivity. Qed.

(** C3.  A create on [bookingRequests] is allowed exactly when the proposed
    document carries a [salonId] other than [null]: it is denied when the
    field is [null] (or missing), and allowed otherwise to every caller,
    authenticated or not, whatever the database says of the caller. *)
Theorem bookingRequests_create database request resource
    (requestId : string) :
  request_method request = Create ->
  resource = None ->
  allowed database request resource ["bookingRequests"%string; requestId]
    = true <->
  exists d v, request_resource request = Some d /\
              d !! "salonId"%string = Some v /\ v <> VNull.
Proof.
  intros Hm ->. open_rules bookingRequests.
  rewrite Hm. cbn [covers orb andb].
  rewrite holds_access_null, Bool.orb_false_l, Bool.orb_false_r, holds_true.
  unfold field, null. destruct (request_resource request) as [d|]; simpl.
  - destruct (d !! "salonId"%string) as [v|] eqn:Hd; simpl.
    + split.
      * intros H. exists d, v. repeat split; [exact Hd|].
        intros ->. discriminate.
      * intros (d' & v' & Hd' & Hv' & Hnn). injection Hd' as <-.
        rewrite Hd in Hv'. injection Hv' as <-.
        destruct v; try reflexivity. now destruct Hnn.
    + split; [discriminate|].
      intros (d' & v' & Hd' & Hv' & _). injection Hd' as <-. congruence.
  - split; [discriminate|]. intros (d' & v' & Hd' & _). discriminate.
Qed.

Lemma bookingRequests_create_witness :
  allowed staffed (anonymous_proposing of_s1) None
    ["bookingRequests"%string; "r1"%string] = true.
Proof.
  apply (bookingRequests_create staffed (anonymous_proposing of_s1) None "r1");
    [reflexivity | reflexivity |].
  exists of_s1, (VString "s1"). repeat split. discriminate.
Defined.

(** C3 on two requests: an anonymous create naming a salon passes, one
    whose [salonId] is [null] does not, not even for the salon's owner. *)
Example bookingRequests_create_null_denied :
  allowed staffed
    (caller "s1" Create (Some {[ "salonId"%string := VNull ]})) None
    ["bookingRequests"%string; "r1"%string] = false.
Proof. vm_compute. reflexivity. Qed.

(** C4.  A create on [teamMembers] is allowed exactly when the caller is
    authenticated and the proposed document's [salonId] is the caller's own
    identity (so it is not [null]).  The database does not enter: a team
    member record of the caller, for the target salon or another, grants
    nothing. *)
Theorem teamMembers_create_owner_only database request resource
    (memberId : string) :
  request_method request = Create ->
  resource = None ->
  allowed database request resource ["teamMembers"%string; memberId]
    = true <->
  exists d, request_resource request = Some d /\ owner_of request d.
Proof.
  intros Hm ->. open_rules teamMembers.
  rewrite Hm. cbn [covers orb andb].
  rewrite holds_owner_null, Bool.orb_false_l, Bool.orb_false_r, holds_true.
  rewrite guarded_owner.
  destruct (request_resource request) as [d|].
  - rewrite isSalonOwner_field. split.
    + intros H. now exists d.
    + intros (d' & Hd' & H). now injection Hd' as <-.
  - pose proof (holds_owner_null request "salonId") as Hn.
    split.
    + intros H. apply holds_true in H. congruence.
    + intros (d' & Hd' & _). discriminate.
Qed.

Lemma teamMembers_create_owner_only_witness :
  allowed staffed (caller "s1" Create (Some of_s1)) None
    ["teamMembers"%string; "m1"%string] = true.
Proof.
  apply (teamMembers_create_owner_only staffed
           (caller "s1" Create (Some of_s1)) None "m1");
    [reflexivity | reflexivity |].
  exists of_s1. split; [reflexivity|].
  exists {| uid := "s1"; token := {| email := None |} |}. split; reflexivity.
Defined.

(** C4 on a request: [u1], a team member of salon [s1], may not add a team
    member to [s1]. *)
Example teamMembers_create_member_denied :
  isTeamMember staffed (caller "u1" Create (Some of_s1))
    (field (Some of_s1) "salonId") = Val true /\
  allowed staffed (caller "u1" Create (Some of_s1)) None
    ["teamMembers"%string; "m1"%string] = false.
Proof. split; vm_compute; reflexivity. Qed.

(** C5.  A get or a list on a stored team member document is denied to
    every caller whose identity is neither the document's [userId] nor its
    [salonId]; an unauthenticated caller has no identity and is denied. *)
Theorem teamMembers_read_denied database request (d : Doc)
    (memberId : string) :
  covers read (request_method request) = true ->
  (forall a, request_auth request = Some a ->
     d !! "userId"%string <> Some (VString (uid a)) /\
     d !! "salonId"%string <> Some (VString (uid a))) ->
  allowed database request (Some d) ["teamMembers"%string; memberId] = false.
Proof.
  intros Hread Hother. open_rules teamMembers.
  assert (Hw : covers write (request_method request) = false)
    by (destruct (request_method request); try discriminate; reflexivity).
  assert (Hc : covers create (request_method request) = false)
    by (destruct (request_method request); try discriminate; reflexivity).
  rewrite Hread, Hw, Hc. cbn [orb andb].
  rewrite Bool.orb_false_r.
  unfold isSalonOwner, isAuthenticated, request_auth_uid, field, str.
  destruct (request_auth request) as [a|]; [|reflexivity].
  destruct (Hother a eq_refl) as [Hu Hs]. simpl.
  destruct (d !! "salonId"%string) as [v|]; simpl; [|reflexivity].
  destruct (value_eqb (VString (uid a)) v) eqn:Ev.
  { apply value_eqb_string in Ev. congruence. }
  simpl. destruct (d !! "userId"%string) as [w|]; simpl; [|reflexivity].
  destruct (value_eqb (VString (uid a)) w) eqn:Ew; [|reflexivity].
  apply value_eqb_string in Ew. congruence.
Qed.

Lemma teamMembers_read_denied_witness :
  allowed staffed (caller "u2" Get None) (Some record_u1)
    ["teamMembers"%string; "u1"%string] = false /\
  allowed staffed (anonymous List) (Some record_u1)
    ["teamMembers"%string; "u1"%string] = false.
Proof.
  split.
  - apply (teamMembers_read_denied staffed (caller "u2" Get None) record_u1
             "u1"); [reflexivity|].
    intros a Ha. injection Ha as <-. split; vm_compute; discriminate.
  - apply (teamMembers_read_denied staffed (anonymous List) record_u1 "u1");
      [reflexivity|].
    intros a Ha. discriminate.
Defined.

(** C6.  [isPlatformAdmin] is meant to hold exactly of the authenticated
    callers whose email is one of the two addresses written into the
    rules.  As written it reads [request.auth.email], which no
    [request.auth] has: it evaluates to [false] for an unauthenticated
    caller and fails to evaluate for every authenticated one, the two
    designated callers included; it is never [true]. *)
Theorem isPlatformAdmin_fails_when_signed_in request :
  isPlatformAdmin request =
  match request_auth request with
  | Some _ => Err
  | None => Val false
  end.
Proof.
  unfold isPlatformAdmin, isAuthenticated, request_auth_email.
  now destruct (request_auth request).
Qed.

(** C6 on three callers: the two designated ones and an anonymous one. *)
Example isPlatformAdmin_callers :
  let signed_in e :=
    {| request_auth := Some {| uid := "u1"; token := {| email := Some e |} |};
       request_method := Get; request_resource := None |} in
  designated (signed_in "ameet@gofisherman.com"%string) /\
  isPlatformAdmin (signed_in "ameet@gofisherman.com"%string) = Err /\
  designated (signed_in "ameetk96@gmail.com"%string) /\
  isPlatformAdmin (signed_in "ameetk96@gmail.com"%string) = Err /\
  isPlatformAdmin (anonymous Get) = Val false.
Proof.
  repeat split; try reflexivity.
  - eexists. split; [reflexivity|]. now left.
  - eexists. split; [reflexivity|]. now right.
Qed.

(** C7.  For an authenticated caller under whose identity no team member
    record is stored, [isTeamMember] evaluates to [false] whatever salon is
    asked about (and even when the argument itself fails to evaluate):
    [exists] is false and cuts the conjunction short before [get] is
    reached, so no evaluation failure arises. *)
Theorem isTeamMember_no_record database request (a : Auth)
    (salonId : outcome value) :
  request_auth request = Some a ->
  database !! ["teamMembers"%string; uid a] = None ->
  isTeamMember database request salonId = Val false.
Proof.
  intros Ha Hnone.
  unfold isTeamMember, isAuthenticated, exists_, teamMembers_of_caller.
  rewrite Ha. simpl. rewrite Hnone. reflexivity.
Qed.

Lemma isTeamMember_no_record_witness :
  isTeamMember staffed (caller "u2" Get None) (str "s1") = Val false.
Proof.
  apply (isTeamMember_no_record staffed (caller "u2" Get None)
           {| uid := "u2"; token := {| email := None |} |} (str "s1"));
    [reflexivity | vm_compute; reflexivity].
Defined.

(** C9, as the rules have it.  On [invitations], [loyaltyPrograms],
    [customerPasses], [visitRecords] and [clients] no statement matches the
    bare collection path, so a list addressed to it is denied to every
    caller.  But [allow read] on the documents of these collections covers
    list as well as get: a list over a stored document is allowed exactly
    when the caller is the owner of the document's salon or, on the four
    collections other than [invitations], a team member of it, and is
    denied to everyone else. *)
Theorem unlisted_list_follows_read database request (d : Doc)
    (collection docId : string) :
  collection ∈ unlisted ->
  request_method request = List ->
  allowed database request (Some d) [collection] = false /\
  (allowed database request (Some d) [collection; docId] = true <->
   owner_of request d \/
   (collection <> "invitations"%string /\ member_of database request d)).
Proof.
  intros Hin Hm. unfold unlisted in Hin.
  repeat (apply elem_of_cons in Hin as [->|Hin]);
    try (apply elem_of_nil in Hin; contradiction).
  - split; [reflexivity|]. open_rules invitations.
    rewrite Hm. cbn [covers orb andb].
    rewrite Bool.orb_false_r, holds_true, isSalonOwner_field.
    split; [auto|]. intros [H|[Hne _]]; [exact H|]. now destruct Hne.
  - split; [reflexivity|]. open_rules loyaltyPrograms. by_access Hm.
  - split; [reflexivity|]. open_rules customerPasses. by_access Hm.
  - split; [reflexivity|]. open_rules visitRecords. by_access Hm.
  - split; [reflexivity|]. open_rules clients. by_access Hm.
Qed.

Lemma unlisted_list_follows_read_witness :
  allowed staffed (caller "u1" List None) (Some of_s1) ["clients"%string]
    = false /\
  allowed staffed (caller "u1" List None) (Some of_s1)
    ["clients"%string; "c1"%string] = true.
Proof.
  destruct (unlisted_list_follows_read staffed (caller "u1" List None) of_s1
              "clients" "c1") as [Hbare Hdoc].
  - unfold unlisted. repeat constructor.
  - reflexivity.
  - split; [exact Hbare|]. apply Hdoc. right. split; [discriminate|].
    exists {| uid := "u1"; token := {| email := None |} |}, record_u1, (VString "s1").
    repeat split; vm_compute; reflexivity.
Defined.

(** C9, as stated, fails: the owner of salon [s1] may list an invitation
    of [s1], and its team member [u1] a client, a loyalty program, a
    customer pass and a visit record of [s1]. *)
Lemma unlisted_list_allowed :
  allowed staffed (caller "s1" List None) (Some of_s1)
    ["invitations"%string; "i1"%string] = true /\
  allowed staffed (caller "u1" List None) (Some of_s1)
    ["clients"%string; "c1"%string] = true /\
  allowed staffed (caller "u1" List None) (Some of_s1)
    ["loyaltyPrograms"%string; "p1"%string] = true /\
  allowed staffed (caller "u1" List None) (Some of_s1)
    ["customerPasses"%string; "p1"%string] = true /\
  allowed staffed (caller "u1" List None) (Some of_s1)
    ["visitRecords"%string; "v1"%string] = true.
Proof. repeat split; vm_compute; reflexivity. Qed.

(* ===================================================================== *)
(** ** Further properties of the rules *)
(* ===================================================================== *)

Lemma isAuthenticated_Some request (a : Auth) :
  request_auth request = Some a -> isAuthenticated request = Val true.
Proof. unfold isAuthenticated. now intros ->. Qed.

Lemma isAuthenticated_None request :
  request_auth request = None -> isAuthenticated request = Val false.
Proof. unfold isAuthenticated. now intros ->. Qed.

Lemma isSalonOwner_None request (s : outcome value) :
  request_auth request = None -> isSalonOwner request s = Val false.
Proof. unfold isSalonOwner, isAuthenticated. now intros ->. Qed.

Lemma isTeamMember_None database request (s : outcome value) :
  request_auth request = None -> isTeamMember database request s = Val false.
Proof. unfold isTeamMember, isAuthenticated. now intros ->. Qed.

Lemma hasSalonAccess_None database request (s : outcome value) :
  request_auth request = None ->
  hasSalonAccess database request s = Val false.
Proof.
  intros H. unfold hasSalonAccess.
  now rewrite isSalonOwner_None, isTeamMember_None.
Qed.

Lemma isPlatformAdmin_None request :
  request_auth request = None -> isPlatformAdmin request = Val false.
Proof. unfold isPlatformAdmin, isAuthenticated. now intros ->. Qed.

(** The two guards of a [create] statement in front of [hasSalonAccess]
    add that the [salonId] is not [null]. *)
Lemma guarded_access database request (d : Doc) :
  andR (andR (isAuthenticated request)
             (neqR (field (Some d) "salonId") null))
       (hasSalonAccess database request (field (Some d) "salonId"))
    = Val true <->
  (owner_of request d \/ member_of database request d) /\ names_a_salon d.
Proof.
  rewrite <- hasSalonAccess_true. unfold names_a_salon.
  remember (hasSalonAccess database request (field (Some d) "salonId"))
    as access eqn:Hacc.
  split.
  - destruct (isAuthenticated request) as [[]|]; cbn [andR];
      try discriminate.
    unfold field, null.
    destruct (d !! "salonId"%string) as [v|]; cbn [neqR andR];
      try discriminate.
    destruct (value_eqb v VNull) eqn:Ev; cbn [negb andR]; try discriminate.
    intros H. split; [exact H|]. intros Hv. injection Hv as ->.
    now rewrite value_eqb_refl in Ev.
  - intros [H Hnn]. pose proof H as H'. rewrite Hacc in H'.
    apply hasSalonAccess_true in H'.
    assert (Ha : exists a, request_auth request = Some a).
    { destruct H' as [(a & Ha & _)|(a & _ & _ & Ha & _)]; now exists a. }
    destruct Ha as [a Ha]. rewrite (isAuthenticated_Some _ a Ha).
    cbn [andR].
    assert (Hv : exists v, d !! "salonId"%string = Some v).
    { destruct H' as [(a' & _ & Hv)|(a' & _ & v & _ & _ & _ & Hv)];
        eexists; exact Hv. }
    destruct Hv as [v Hv]. unfold field, null. rewrite Hv. cbn [neqR].
    destruct (value_eqb v VNull) eqn:Ev; cbn [negb andR]; [|exact H].
    apply value_eqb_eq in Ev. subst v. contradiction.
Qed.

Lemma holds_guarded_access_null database request :
  holds (andR (andR (isAuthenticated request)
                    (neqR (field None "salonId") null))
              (hasSalonAccess database request (field None "salonId")))
    = false.
Proof.
  unfold isAuthenticated, field. now destruct (request_auth request).
Qed.

(** X1.  A write on a salon document is allowed exactly to the caller whose
    identity is the document's id, whatever the document holds or is
    proposed to hold: creating, updating and deleting a salon are the
    owner's alone. *)
Theorem salons_write_owner_only database request resource
    (salonId : string) :
  covers write (request_method request) = true ->
  allowed database request resource ["salons"%string; salonId] = true <->
  exists a, request_auth request = Some a /\ uid a = salonId.
Proof.
  intros Hw. open_rules salons.
  assert (Hr : covers read (request_method request) = false)
    by (destruct (request_method request); try discriminate; reflexivity).
  rewrite Hw, Hr. cbn [orb andb]. rewrite Bool.orb_false_r, holds_true.
  change (andR (isAuthenticated request)
               (eqR (request_auth_uid request) (str salonId)))
    with (isSalonOwner request (str salonId)).
  rewrite isSalonOwner_true. unfold str.
  split; intros (a & Ha & Hs); exists a; (split; [exact Ha|]); congruence.
Qed.

Lemma salons_write_owner_only_witness :
  allowed staffed (caller "s1" Update (Some of_s1)) (Some of_s1)
    ["salons"%string; "s1"%string] = true.
Proof.
  apply (salons_write_owner_only staffed (caller "s1" Update (Some of_s1))
           (Some of_s1) "s1"); [reflexivity|].
  eexists. split; reflexivity.
Defined.

(** X2.  A get or a list on any document of [providers] or [services] is
    allowed to every caller, authenticated or not: each block carries
    [allow read: if true]. *)
Theorem providers_services_public_read database request resource
    (collection docId : string) :
  collection ∈ ["providers"; "services"]%string ->
  covers read (request_method request) = true ->
  allowed database request resource [collection; docId] = true.
Proof.
  intros Hin Hread.
  repeat (apply elem_of_cons in Hin as [->|Hin]);
    try (apply elem_of_nil in Hin; contradiction);
    apply existsb_exists; exists (allow [read] (Val true));
    (split; [simpl; do 2 right; now left|]);
    unfold grants; cbn [methods condition existsb holds]; now rewrite Hread.
Qed.

Lemma providers_services_public_read_witness :
  allowed ∅ (anonymous List) None ["providers"%string; "p1"%string] = true.
Proof.
  apply (providers_services_public_read ∅ (anonymous List) None
           "providers" "p1"); [|reflexivity].
  repeat constructor.
Defined.

(** The write case of a block of [managed]: the statements that only
    cover reads fall away, an update or delete is judged on the stored
    document and a create on the proposed one. *)
Ltac managed_write Hw Hj :=
  unfold salonScoped, grants; cbn [existsb methods condition];
  unfold judged_on in Hj;
  destruct (request_method _); try discriminate Hw; cbn [covers orb andb];
  [ destruct Hj as [-> Hnew];
    rewrite holds_access_null, Hnew; cbn [orb];
    rewrite ?Bool.orb_false_r, holds_true, guarded_access;
    split; [intros [H Hn]; split; [exact H | intros _; exact Hn]
           | intros [H Hn]; split; [exact H | now apply Hn]]
  | rewrite Hj, ?Bool.orb_false_r, holds_true, hasSalonAccess_true;
    split; [intros H; split; [exact H | discriminate] | now intros [H _]]
  | rewrite Hj, ?Bool.orb_false_r, holds_true, hasSalonAccess_true;
    split; [intros H; split; [exact H | discriminate] | now intros [H _]] ].

(** X3.  On [providers], [services], [loyaltyPrograms], [customerPasses],
    [visitRecords], [clients] and [shiftChangeRequests], an update or a
    delete is allowed exactly to the owner and the team members of the
    stored document's salon, and a create exactly to the owner and the team
    members of the proposed document's salon, provided its [salonId] is
    not [null]. *)
Theorem managed_write database request resource (d : Doc)
    (collection docId : string) :
  collection ∈ managed ->
  covers write (request_method request) = true ->
  judged_on request resource d ->
  allowed database request resource [collection; docId] = true <->
  (owner_of request d \/ member_of database request d) /\
  (request_method request = Create -> names_a_salon d).
Proof.
  intros Hin Hw Hj. unfold managed in Hin.
  repeat (apply elem_of_cons in Hin as [->|Hin]);
    try (apply elem_of_nil in Hin; contradiction).
  - open_rules providers. managed_write Hw Hj.
  - open_rules services. managed_write Hw Hj.
  - open_rules loyaltyPrograms. managed_write Hw Hj.
  - open_rules customerPasses. managed_write Hw Hj.
  - open_rules visitRecords. managed_write Hw Hj.
  - open_rules clients. managed_write Hw Hj.
  - open_rules shiftChangeRequests. managed_write Hw Hj.
Qed.

Lemma u1_member_of_s1 (m : Method) (proposed : option Doc) :
  member_of staffed (caller "u1" m proposed) of_s1.
Proof.
  exists {| uid := "u1"; token := {| email := None |} |}, record_u1, (VString "s1").
  repeat split; vm_compute; reflexivity.
Qed.

Lemma managed_write_witness :
  allowed staffed (caller "u1" Create (Some of_s1)) None
    ["providers"%string; "p1"%string] = true.
Proof.
  apply (managed_write staffed (caller "u1" Create (Some of_s1)) None of_s1
           "providers" "p1").
  - unfold managed. repeat constructor.
  - reflexivity.
  - split; reflexivity.
  - split; [right; apply u1_member_of_s1|].
    intros _. vm_compute. discriminate.
Defined.

(** X4.  A get or a list on a booking request, stored or not, is allowed
    exactly to authenticated callers: any signed-in user reads the booking
    requests of every salon. *)
Theorem bookingRequests_read database request resource
    (requestId : string) :
  covers read (request_method request) = true ->
  allowed database request resource ["bookingRequests"%string; requestId]
    = true <->
  is_Some (request_auth request).
Proof.
  intros Hread. open_rules bookingRequests.
  assert (Hc : covers create (request_method request) = false)
    by (destruct (request_method request); try discriminate; reflexivity).
  rewrite Hread, Hc. cbn [orb andb].
  destruct (request_auth request) as [a|] eqn:Ha.
  - rewrite (isAuthenticated_Some _ a Ha). cbn [holds].
    rewrite !Bool.orb_true_r. split; [eauto|reflexivity].
  - rewrite (hasSalonAccess_None _ _ _ Ha), (isAuthenticated_None _ Ha).
    cbn [holds orb]. split; [discriminate|]. intros [a Hs]. discriminate.
Qed.

Lemma bookingRequests_read_witness :
  allowed staffed (caller "u2" Get None) (Some of_s1)
    ["bookingRequests"%string; "r1"%string] = true.
Proof.
  apply (bookingRequests_read staffed (caller "u2" Get None) (Some of_s1)
           "r1"); [reflexivity|].
  eexists. reflexivity.
Defined.

(** X5.  An update or a delete of a stored booking request is allowed exactly
    to the owner and the team members of its salon. *)
Theorem bookingRequests_modify database request (d : Doc)
    (requestId : string) :
  request_method request = Update \/ request_method request = Delete ->
  allowed database request (Some d) ["bookingRequests"%string; requestId]
    = true <->
  owner_of request d \/ member_of database request d.
Proof.
  intros Hm. open_rules bookingRequests.
  destruct Hm as [-> | ->]; cbn [covers orb andb];
    now rewrite ?Bool.orb_false_r, holds_true, hasSalonAccess_true.
Qed.

Lemma bookingRequests_modify_witness :
  allowed staffed (caller "u1" Update (Some of_s1)) (Some of_s1)
    ["bookingRequests"%string; "r1"%string] = true.
Proof.
  apply (bookingRequests_modify staffed (caller "u1" Update (Some of_s1))
           of_s1 "r1"); [now left|].
  right. apply u1_member_of_s1.
Defined.

(** [request.auth.uid == d.data.f] behind [isAuthenticated]. *)
Lemma uid_is_field request (d : Doc) (f : string) :
  andR (isAuthenticated request)
       (eqR (request_auth_uid request) (field (Some d) f)) = Val true <->
  named_by request d f.
Proof.
  change (andR (isAuthenticated request)
               (eqR (request_auth_uid request) (field (Some d) f)))
    with (isSalonOwner request (field (Some d) f)).
  rewrite isSalonOwner_true. unfold named_by, field.
  split; intros (a & Ha & Hv); exists a; (split; [exact Ha|]).
  - destruct (d !! f); congruence.
  - now rewrite Hv.
Qed.

Lemma field_is_uid request (d : Doc) (f : string) :
  andR (isAuthenticated request)
       (eqR (field (Some d) f) (request_auth_uid request)) = Val true <->
  named_by request d f.
Proof.
  rewrite <- uid_is_field.
  destruct (isAuthenticated request) as [[]|]; cbn [andR]; try reflexivity.
  unfold eqR. destruct (field (Some d) f), (request_auth_uid request);
    try reflexivity.
  now rewrite value_eqb_sym.
Qed.

(** X6.  A get or a list on a stored team member document that carries a
    [salonId] is allowed exactly to the owner of that salon and to the
    member the document is about (the caller its [userId] names). *)
Theorem teamMembers_read database request (d : Doc) (memberId : string) :
  is_Some (d !! "salonId"%string) ->
  covers read (request_method request) = true ->
  allowed database request (Some d) ["teamMembers"%string; memberId]
    = true <->
  owner_of request d \/ named_by request d "userId".
Proof.
  intros [v Hv] Hread. open_rules teamMembers.
  assert (Hw : covers write (request_method request) = false)
    by (destruct (request_method request); try discriminate; reflexivity).
  assert (Hc : covers create (request_method request) = false)
    by (destruct (request_method request); try discriminate; reflexivity).
  rewrite Hread, Hw, Hc. cbn [orb andb].
  rewrite Bool.orb_false_r, holds_true.
  rewrite <- isSalonOwner_field, <- (uid_is_field request d "userId").
  destruct (isAuthenticated request) as [[]|] eqn:Hauth; cbn [andR].
  - (* the owner test has a value as soon as the field is there *)
    unfold isSalonOwner. rewrite Hauth. cbn [andR].
    unfold field at 1 3. rewrite Hv.
    destruct (request_auth_uid request) as [u|]; cbn [eqR orR].
    + destruct (value_eqb u v); cbn [orR]; split; auto.
      intros [H|H]; [discriminate|exact H].
    + split; [discriminate|]. intros [H|H]; discriminate.
  - unfold isSalonOwner. rewrite Hauth. cbn [andR].
    split; [discriminate|]. intros [H|H]; discriminate.
  - unfold isSalonOwner. rewrite Hauth. cbn [andR].
    split; [discriminate|]. intros [H|H]; discriminate.
Qed.

Lemma teamMembers_read_witness :
  allowed staffed (caller "u1" Get None) (Some record_u1)
    ["teamMembers"%string; "u1"%string] = true.
Proof.
  apply (teamMembers_read staffed (caller "u1" Get None) record_u1 "u1").
  - vm_compute. eexists. reflexivity.
  - reflexivity.
  - right. eexists. split; [reflexivity|]. vm_compute. reflexivity.
Defined.

(** X7.  An update or a delete of a stored team member document is allowed
    exactly to the owner of its salon: members cannot change or remove
    their own record. *)
Theorem teamMembers_modify database request (d : Doc) (memberId : string) :
  request_method request = Update \/ request_method request = Delete ->
  allowed database request (Some d) ["teamMembers"%string; memberId]
    = true <->
  owner_of request d.
Proof.
  intros Hm. open_rules teamMembers.
  destruct Hm as [-> | ->]; cbn [covers orb andb];
    now rewrite ?Bool.orb_false_r, holds_true, isSalonOwner_field.
Qed.

Lemma teamMembers_modify_witness :
  allowed staffed (caller "s1" Delete None) (Some record_u1)
    ["teamMembers"%string; "u1"%string] = true.
Proof.
  apply (teamMembers_modify staffed (caller "s1" Delete None) record_u1
           "u1"); [now right|].
  eexists. split; [reflexivity|]. vm_compute. reflexivity.
Defined.

(** X8.  A get or a list on a stored shift change request is allowed exactly to
    the owner and the team members of its salon and to the provider the
    request is about (the caller its [providerId] names). *)
Theorem shiftChangeRequests_read database request (d : Doc)
    (requestId : string) :
  covers read (request_method request) = true ->
  allowed database request (Some d)
    ["shiftChangeRequests"%string; requestId] = true <->
  owner_of request d \/ member_of database request d \/
  named_by request d "providerId".
Proof.
  intros Hread. open_rules shiftChangeRequests.
  assert (Hc : covers create (request_method request) = false)
    by (destruct (request_method request); try discriminate; reflexivity).
  rewrite Hread, Hc. cbn [orb andb].
  rewrite Bool.orb_false_r, Bool.orb_true_iff, !holds_true.
  rewrite hasSalonAccess_true, field_is_uid. tauto.
Qed.

(** A provider who is neither owner nor team member reads the shift change
    request made in the provider's name. *)
Lemma shiftChangeRequests_read_witness :
  allowed staffed (caller "p7" Get None)
    (Some {[ "salonId"%string := VString "s1";
             "providerId"%string := VString "p7" ]})
    ["shiftChangeRequests"%string; "q1"%string] = true.
Proof.
  apply (shiftChangeRequests_read staffed (caller "p7" Get None)
           {[ "salonId"%string := VString "s1";
              "providerId"%string := VString "p7" ]} "q1");
    [reflexivity|].
  right. right. eexists. split; [reflexivity|]. vm_compute. reflexivity.
Defined.

(** X9.  A create on [sessionTracking] or [sessions] is allowed to every caller,
    whatever is proposed. *)
Theorem sessions_create_public database request resource
    (collection sessionId : string) :
  collection ∈ ["sessionTracking"; "sessions"]%string ->
  request_method request = Create ->
  allowed database request resource [collection; sessionId] = true.
Proof.
  intros Hin Hm.
  repeat (apply elem_of_cons in Hin as [->|Hin]);
    try (apply elem_of_nil in Hin; contradiction);
    unfold allowed, statements; cbn [String.eqb Ascii.eqb Bool.eqb];
    unfold sessions, sessionTracking, grants;
    cbn [existsb methods condition]; now rewrite Hm.
Qed.

Lemma sessions_create_public_witness :
  allowed ∅ (anonymous_proposing ∅) None
    ["sessions"%string; "x1"%string] = true.
Proof.
  apply (sessions_create_public ∅ (anonymous_proposing ∅) None
           "sessions" "x1"); [|reflexivity].
  repeat constructor.
Defined.

(** X10.  Every other request on a stored [sessionTracking] or [sessions]
    document (get, list, update, delete) is allowed exactly to the owner
    and the team members of its salon, and to nobody when its [salonId] is
    [null]. *)
Theorem sessions_stored database request (d : Doc)
    (collection sessionId : string) :
  collection ∈ ["sessionTracking"; "sessions"]%string ->
  request_method request <> Create ->
  allowed database request (Some d) [collection; sessionId] = true <->
  (owner_of request d \/ member_of database request d) /\ names_a_salon d.
Proof.
  intros Hin Hm.
  repeat (apply elem_of_cons in Hin as [->|Hin]);
    try (apply elem_of_nil in Hin; contradiction);
    unfold allowed, statements; cbn [String.eqb Ascii.eqb Bool.eqb];
    unfold sessions, sessionTracking, grants;
    cbn [existsb methods condition];
    (destruct (request_method request); try contradiction;
     cbn [covers orb andb];
     now rewrite ?Bool.orb_false_r, holds_true, guarded_access).
Qed.

Lemma sessions_stored_witness :
  allowed staffed (caller "u1" Get None) (Some of_s1)
    ["sessions"%string; "x1"%string] = true.
Proof.
  apply (sessions_stored staffed (caller "u1" Get None) of_s1
           "sessions" "x1").
  - repeat constructor.
  - discriminate.
  - split; [right; apply u1_member_of_s1|]. vm_compute. discriminate.
Defined.

(** Case analysis on the name of a collection, test by test as
    [statements] makes them. *)
Ltac split_collection c :=
  repeat match goal with
         | |- context [String.eqb c ?lit] =>
             destruct (String.eqb_spec c lit) as [->|?]; cbv beta iota
         end.

Ltac is_in := repeat constructor.
Ltac not_in H :=
  repeat (apply elem_of_cons in H as [H|H]; [congruence|]);
  apply elem_of_nil in H; contradiction.

Ltac open_blocks :=
  unfold salons, providers, services, bookingRequests, teamMembers,
    invitations, loyaltyPrograms, customerPasses, visitRecords, clients,
    salonScoped, shiftChangeRequests, sessions, sessionTracking, grants;
  cbn [existsb methods condition].

(** Evaluates the helper functions for an unauthenticated caller. *)
Ltac as_anonymous Ha :=
  rewrite ?(hasSalonAccess_None _ _ _ Ha), ?(isSalonOwner_None _ _ Ha),
    ?(isTeamMember_None _ _ _ Ha), ?(isPlatformAdmin_None _ Ha),
    ?(isAuthenticated_None _ Ha);
  cbn [andR orR holds andb orb].

(** X12.  Nothing is allowed outside the documents and the bare names of the
    thirteen collections: a path into a subcollection, the empty path and
    any other collection are denied to every caller. *)
Theorem allowed_known_collections database request resource (path : Path) :
  allowed database request resource path = true ->
  exists collection rest,
    path = collection :: rest /\ collection ∈ collections /\
    (length rest <= 1)%nat.
Proof.
  destruct path as [|c [|docId [|x rest]]]; try discriminate.
  unfold allowed, statements. split_collection c; try discriminate;
    intros _; eexists _, [docId]; (split; [reflexivity|]);
    (split; [unfold collections; is_in | simpl; lia]).
Qed.

Lemma allowed_known_collections_witness :
  exists collection rest,
    ["salons"%string; "s1"%string] = collection :: rest /\
    collection ∈ collections /\ (length rest <= 1)%nat.
Proof.
  apply (allowed_known_collections ∅ (anonymous Get) None
           ["salons"%string; "s1"%string]).
  reflexivity.
Defined.

(** X13.  An unauthenticated caller writes nothing but new booking requests and
    new session records: every update and delete, and every create on
    another collection, is denied. *)
Theorem anonymous_writes database request resource (path : Path) :
  request_auth request = None ->
  covers write (request_method request) = true ->
  allowed database request resource path = true ->
  request_method request = Create /\
  exists collection docId,
    path = [collection; docId] /\
    collection ∈ ["bookingRequests"; "sessionTracking"; "sessions"]%string.
Proof.
  intros Ha Hw. destruct path as [|c [|docId [|x rest]]]; try discriminate.
  unfold allowed, statements. split_collection c; open_blocks;
    as_anonymous Ha;
    destruct (request_method request); try discriminate Hw;
    cbn [covers orb andb holds]; try discriminate;
    intros _; (split; [reflexivity|]); eexists _, _;
    (split; [reflexivity | is_in]).
Qed.

Lemma anonymous_writes_witness :
  Create = Create /\
  exists collection docId,
    ["bookingRequests"%string; "r1"%string] = [collection; docId] /\
    collection ∈ ["bookingRequests"; "sessionTracking"; "sessions"]%string.
Proof.
  apply (anonymous_writes staffed (anonymous_proposing of_s1) None
           ["bookingRequests"%string; "r1"%string]);
    [reflexivity | reflexivity | vm_compute; reflexivity].
Defined.

(** X14.  An unauthenticated caller reads the documents of [salons], [providers]
    and [services] and of no other collection. *)
Theorem anonymous_reads database request resource (collection docId : string) :
  request_auth request = None ->
  covers read (request_method request) = true ->
  allowed database request resource [collection; docId] = true <->
  collection ∈ ["salons"; "providers"; "services"]%string.
Proof.
  intros Ha Hread.
  assert (Hw : covers write (request_method request) = false)
    by (destruct (request_method request); try discriminate; reflexivity).
  assert (Hc : covers create (request_method request) = false)
    by (destruct (request_method request); try discriminate; reflexivity).
  unfold allowed, statements. split_collection collection; open_blocks;
    as_anonymous Ha; rewrite ?Hread, ?Hw, ?Hc; cbn [andb orb];
    rewrite ?Bool.orb_true_r.
  1-3: split; [intros _; is_in | reflexivity].
  all: split; [discriminate | intros Hin; not_in Hin].
Qed.

Lemma anonymous_reads_witness :
  allowed staffed (anonymous Get) (Some of_s1)
    ["services"%string; "v1"%string] = true.
Proof.
  apply (anonymous_reads staffed (anonymous Get) (Some of_s1) "services" "v1");
    [reflexivity | reflexivity | is_in].
Defined.









(** X16.  The owner of a salon may do everything with the documents of that
    salon: read, list, update and delete the stored ones and create new
    ones, in every collection. *)
Theorem owner_unrestricted database request resource (d : Doc)
    (collection docId : string) :
  collection ∈ salon_data ->
  owner_of request d ->
  judged_on request resource d ->
  allowed database request resource [collection; docId] = true.
Proof.
  intros Hin Ho Hj.
  assert (Hacc : hasSalonAccess database request (field (Some d) "salonId")
                 = Val true) by (apply hasSalonAccess_true; now left).
  assert (Hown : isSalonOwner request (field (Some d) "salonId") = Val true)
    by now apply isSalonOwner_field.
  assert (Hauth : isAuthenticated request = Val true).
  { destruct Ho as (a & Ha & _). now apply (isAuthenticated_Some _ a). }
  assert (Hnn : neqR (field (Some d) "salonId") null = Val true).
  { destruct Ho as (a & _ & Hv). unfold field. now rewrite Hv. }
  unfold judged_on in Hj. unfold salon_data in Hin.
  repeat (apply elem_of_cons in Hin as [->|Hin]);
    try (apply elem_of_nil in Hin; contradiction);
    unfold allowed, statements; cbn [String.eqb Ascii.eqb Bool.eqb];
    open_blocks;
    (destruct (request_method request);
     [..| destruct Hj as [Hres Hnew]; rewrite ?Hnew | |];
     try rewrite Hj;
     rewrite ?Hacc, ?Hown, ?Hauth, ?Hnn;
     cbn [andR orR holds andb orb covers];
     rewrite ?Bool.orb_true_r; reflexivity).
Qed.

Lemma owner_unrestricted_witness :
  allowed staffed (caller "s1" Delete None) (Some of_s1)
    ["clients"%string; "c1"%string] = true.
Proof.
  apply (owner_unrestricted staffed (caller "s1" Delete None) (Some of_s1)
           of_s1 "clients" "c1").
  - unfold salon_data. is_in.
  - eexists. split; reflexivity.
  - reflexivity.
Defined.

End FirestoreTheory.

(* ===================================================================== *)
(** ** Properties of the clients page *)
(* ===================================================================== *)

Module ClientsPageTheory.
Import ClientsPage.

(** *** The map *)

Lemma has_keys (k : string) (m : Map) : has k m = true <-> k ∈ keys m.
Proof.
  induction m as [|[k' v] m IH]; simpl.
  - split; [discriminate|]. intros H. now apply elem_of_nil in H.
  - rewrite Bool.orb_true_iff, IH, elem_of_cons, String.eqb_eq.
    split; intros [H|H]; auto.
Qed.

Lemma get_None (k : string) (m : Map) : get k m = None <-> k ∉ keys m.
Proof.
  induction m as [|[k' v] m IH]; simpl.
  - split; [|reflexivity]. intros _ H. now apply elem_of_nil in H.
  - rewrite not_elem_of_cons. destruct (String.eqb_spec k' k) as [->|Hne].
    + split; [discriminate|]. intros [H _]. now destruct H.
    + rewrite IH. split; [|tauto]. intros H. split; [congruence|exact H].
Qed.

Lemma get_Some_keys (k : string) (c : Client.t) (m : Map) :
  get k m = Some c -> k ∈ keys m.
Proof.
  intros H. destruct (decide (k ∈ keys m)) as [Hin|Hout]; [exact Hin|].
  apply get_None in Hout. congruence.
Qed.

Lemma get_set (k k' : string) (v : Client.t) (m : Map) :
  get k' (set k v m) = if String.eqb k k' then Some v else get k' m.
Proof.
  induction m as [|[k0 v0] m IH]; simpl.
  - reflexivity.
  - destruct (String.eqb_spec k0 k) as [->|Hne]; simpl.
    + destruct (String.eqb k k'); reflexivity.
    + rewrite IH. destruct (String.eqb_spec k0 k') as [->|Hne'].
      * destruct (String.eqb_spec k k'); [congruence|reflexivity].
      * reflexivity.
Qed.

Lemma keys_set (k : string) (v : Client.t) (m : Map) :
  keys (set k v m) = if has k m then keys m else keys m ++ [k].
Proof.
  induction m as [|[k0 v0] m IH]; simpl.
  - reflexivity.
  - destruct (String.eqb_spec k0 k) as [->|Hne]; simpl.
    + reflexivity.
    + rewrite IH. now destruct (has k m).
Qed.

Lemma set_set (k : string) (v v' : Client.t) (m : Map) :
  set k v' (set k v m) = set k v' m.
Proof.
  induction m as [|[k0 v0] m IH]; simpl.
  - now rewrite String.eqb_refl.
  - destruct (String.eqb_spec k0 k) as [->|Hne]; simpl.
    + now rewrite String.eqb_refl.
    + destruct (String.eqb_spec k0 k); [congruence|]. now rewrite IH.
Qed.

(** With one entry per key, every value of the map is found under a
    key. *)
Lemma values_get (m : Map) (c : Client.t) :
  NoDup (keys m) -> c ∈ values m -> exists k, get k m = Some c.
Proof.
  induction m as [|[k0 v0] m IH]; simpl; intros Hnd Hin.
  - now apply elem_of_nil in Hin.
  - apply NoDup_cons in Hnd as [Hout Hnd].
    apply elem_of_cons in Hin as [->|Hin].
    + exists k0. now rewrite String.eqb_refl.
    + destruct (IH Hnd Hin) as [k Hk]. exists k.
      destruct (String.eqb_spec k0 k) as [->|Hne]; [|exact Hk].
      apply get_Some_keys in Hk. contradiction.
Qed.

(** When every entry carries its key as [id], the ids of the values are
    the keys. *)
Lemma ids_keys (m : Map) :
  NoDup (keys m) ->
  (forall k c, get k m = Some c -> Client.id c = k) ->
  map Client.id (values m) = keys m.
Proof.
  induction m as [|[k0 v0] m IH]; simpl; intros Hnd Hid.
  - reflexivity.
  - apply NoDup_cons in Hnd as [Hout Hnd]. f_equal.
    + apply Hid. now rewrite String.eqb_refl.
    + apply IH; [exact Hnd|]. intros k c Hk. apply Hid.
      destruct (String.eqb_spec k0 k) as [->|Hne]; [|exact Hk].
      apply get_Some_keys in Hk. contradiction.
Qed.

(** *** Groups and dates *)

Lemma group_snoc (k : string) (rs : list BookingRequest.t)
    (r : BookingRequest.t) :
  group k (rs ++ [r]) =
  group k rs ++ (if String.eqb (clientKey r) k then [r] else []).
Proof. unfold group. rewrite List.filter_app. reflexivity. Qed.

Lemma group_nil (k : string) (rs : list BookingRequest.t) :
  (forall r, r ∈ rs -> clientKey r <> k) -> group k rs = [].
Proof.
  induction rs as [|r rs IH]; intros H; simpl.
  - reflexivity.
  - destruct (String.eqb_spec (clientKey r) k) as [He|_].
    + exfalso. apply (H r); [left|exact He].
    + apply IH. intros r' Hr'. apply H. now right.
Qed.

Lemma group_not_nil (k : string) (rs : list BookingRequest.t)
    (r : BookingRequest.t) :
  r ∈ rs -> clientKey r = k -> group k rs <> [].
Proof.
  induction rs as [|r0 rs IH]; intros Hin Hk; simpl.
  - now apply elem_of_nil in Hin.
  - destruct (String.eqb_spec (clientKey r0) k) as [_|Hne]; [discriminate|].
    apply elem_of_cons in Hin as [->|Hin]; [contradiction|]. now apply IH.
Qed.

Lemma bookedOnes_snoc (rs : list BookingRequest.t) (r : BookingRequest.t) :
  bookedOnes (rs ++ [r]) =
  bookedOnes rs ++
  (if Status_eqb (BookingRequest.status r) booked then [r] else []).
Proof. unfold bookedOnes. rewrite List.filter_app. reflexivity. Qed.

Lemma latest_snoc (rs : list BookingRequest.t) (r : BookingRequest.t) :
  rs <> [] ->
  latest (rs ++ [r]) = Z.max (latest rs) (BookingRequest.createdAt r).
Proof.
  induction rs as [|r0 rs IH]; intros Hne; [contradiction|].
  destruct rs as [|r1 rs].
  - reflexivity.
  - change (latest ((r0 :: r1 :: rs) ++ [r]))
      with (Z.max (BookingRequest.createdAt r0) (latest ((r1 :: rs) ++ [r]))).
    rewrite IH by discriminate.
    change (latest (r0 :: r1 :: rs))
      with (Z.max (BookingRequest.createdAt r0) (latest (r1 :: rs))).
    lia.
Qed.

(** [latest] is the greatest [createdAt] of the list, and is the
    [createdAt] of one of its requests. *)
Lemma latest_greatest (rs : list BookingRequest.t) :
  rs <> [] ->
  (exists r, r ∈ rs /\ BookingRequest.createdAt r = latest rs) /\
  (forall r, r ∈ rs -> BookingRequest.createdAt r <= latest rs).
Proof.
  induction rs as [|r0 rs IH]; intros Hne; [contradiction|].
  destruct rs as [|r1 rs].
  - split.
    + exists r0. split; [left|reflexivity].
    + intros r Hr. apply elem_of_cons in Hr as [->|Hr]; [simpl; lia|].
      now apply elem_of_nil in Hr.
  - destruct IH as [(r & Hr & Hmax) Hle]; [discriminate|].
    change (latest (r0 :: r1 :: rs))
      with (Z.max (BookingRequest.createdAt r0) (latest (r1 :: rs))).
    split.
    + destruct (Z.max_spec (BookingRequest.createdAt r0) (latest (r1 :: rs)))
        as [[_ ->]|[_ ->]].
      * exists r. split; [now right|exact Hmax].
      * exists r0. split; [left|reflexivity].
    + intros r' Hr'. apply elem_of_cons in Hr' as [->|Hr']; [lia|].
      specialize (Hle r' Hr'). lia.
Qed.

(** The stored text names the second of the latest date so far; comparing
    a new date with the date read back from it keeps it so. *)
Lemma later_second (latest_so_far t : Z) :
  (if t >? 1000 * (latest_so_far / 1000) then t / 1000
   else latest_so_far / 1000) =
  Z.max latest_so_far t / 1000.
Proof.
  destruct (Z.gtb_spec t (1000 * (latest_so_far / 1000))) as [Hgt|Hle];
    destruct (Z.max_spec latest_so_far t) as [[Hlt ->]|[Hge ->]];
    try reflexivity.
  - apply Z.le_antisymm.
    + apply Z.div_le_mono; lia.
    + apply Z.div_le_lower_bound; lia.
  - pose proof (Z.mul_div_le latest_so_far 1000 ltac:(lia)) as Hfloor.
    assert (t = latest_so_far) by lia. now subst.
Qed.

Lemma elem_of_group (k : string) (rs : list BookingRequest.t)
    (r : BookingRequest.t) :
  r ∈ group k rs -> r ∈ rs.
Proof.
  unfold group. rewrite !list_elem_of_In, List.filter_In. tauto.
Qed.

(** *** One request *)

Section Dates.

Variable toString : Date -> string.
Variable new_Date : string -> option Date.

Local Abbreviation newClient := (ClientsPage.newClient toString).
Local Abbreviation tally := (ClientsPage.tally toString new_Date).
Local Abbreviation visit := (ClientsPage.visit toString new_Date).
Local Abbreviation fetchClients :=
  (ClientsPage.fetchClients toString new_Date).

Lemma tallies_first (k : string) (r : BookingRequest.t) :
  tallies k (tally (newClient k r) r) [r].
Proof.
  unfold tallies, ClientsPage.tally, ClientsPage.newClient, bookedOnes.
  simpl. repeat split.
  - now destruct (Status_eqb _ _).
  - now destruct (Status_eqb _ _).
Qed.

Lemma tallies_next (k : string) (c : Client.t) (g : list BookingRequest.t)
    (r : BookingRequest.t) :
  g <> [] -> tallies k c g -> tallies k (tally c r) (g ++ [r]).
Proof.
  intros Hne (Hid & Htotal & Hreqs & Hdone & Hspent).
  unfold tallies, ClientsPage.tally. simpl. repeat split.
  - exact Hid.
  - rewrite Htotal, length_app. simpl. lia.
  - now rewrite Hreqs.
  - rewrite bookedOnes_snoc, length_app, Hdone.
    destruct (Status_eqb _ _); simpl; lia.
  - rewrite Hspent. destruct (Status_eqb _ _); lia.
Qed.

Lemma grouped_nil : grouped [] [].
Proof.
  repeat split.
  - constructor.
  - intros H. now apply elem_of_nil in H.
  - intros (r & Hr & _). now apply elem_of_nil in Hr.
  - discriminate.
  - discriminate.
  - discriminate.
  - discriminate.
  - discriminate.
Qed.

Lemma grouped_visit (m : Map) (done : list BookingRequest.t)
    (r : BookingRequest.t) :
  grouped m done -> grouped (visit m r) (done ++ [r]).
Proof.
  intros (Hnd & Hkeys & Htal). unfold ClientsPage.visit.
  change (toLowerCase (BookingRequest.clientEmail r)) with (clientKey r).
  set (k0 := clientKey r).
  assert (Hothers : forall k c,
            k0 <> k -> get k m = Some c -> tallies k c (group k (done ++ [r]))).
  { intros k c Hne Hget. rewrite group_snoc. fold k0.
    destruct (String.eqb_spec k0 k); [contradiction|].
    rewrite app_nil_r. now apply Htal. }
  assert (Hmet : forall k,
            (exists r', r' ∈ done ++ [r] /\ clientKey r' = k) <->
            k ∈ keys m \/ k = k0).
  { intros k. rewrite Hkeys. split.
    - intros (r' & Hr' & Hk). apply elem_of_app in Hr' as [Hr'|Hr'].
      + left. now exists r'.
      + right. apply elem_of_cons in Hr' as [->|Hr']; [now symmetry|].
        now apply elem_of_nil in Hr'.
    - intros [(r' & Hr' & Hk)| ->].
      + exists r'. split; [|exact Hk]. apply elem_of_app. now left.
      + exists r. split; [|reflexivity]. apply elem_of_app. right. left. }
  destruct (has k0 m) eqn:Hhas.
  - (* the key is present *)
    pose proof (proj1 (has_keys k0 m) Hhas) as Hin.
    destruct (get k0 m) as [c|] eqn:Hget;
      [|apply get_None in Hget; contradiction].
    split; [|split].
    + rewrite keys_set, Hhas. exact Hnd.
    + intros k. rewrite keys_set, Hhas, Hmet. split; [auto|].
      intros [H| ->]; [exact H|exact Hin].
    + intros k c'. rewrite get_set.
      destruct (String.eqb_spec k0 k) as [<-|Hne]; [|now apply Hothers].
      intros Hc'. injection Hc' as <-.
      rewrite group_snoc. fold k0. rewrite String.eqb_refl.
      apply tallies_next; [|now apply Htal].
      apply Hkeys in Hin as (r' & Hr' & Hk'). now apply (group_not_nil _ _ r').
  - (* the key is new *)
    assert (Hout : k0 ∉ keys m).
    { intros Hin. apply has_keys in Hin. congruence. }
    rewrite get_set, String.eqb_refl, set_set.
    split; [|split].
    + rewrite keys_set, Hhas. apply NoDup_app. split; [exact Hnd|]. split.
      * intros k Hk Hk0. apply elem_of_cons in Hk0 as [->|Hk0];
          [contradiction|]. now apply elem_of_nil in Hk0.
      * apply NoDup_singleton.
    + intros k. rewrite keys_set, Hhas, Hmet, elem_of_app.
      split; intros [H|H]; auto.
      * right. apply elem_of_cons in H as [->|H]; [reflexivity|].
        now apply elem_of_nil in H.
      * right. subst k. left.
    + intros k c'. rewrite get_set.
      destruct (String.eqb_spec k0 k) as [<-|Hne]; [|now apply Hothers].
      intros Hc'. injection Hc' as <-.
      rewrite group_snoc. fold k0. rewrite String.eqb_refl.
      rewrite group_nil.
      * apply tallies_first.
      * intros r' Hr' Hk'. apply Hout. apply Hkeys. now exists r'.
Qed.

Lemma grouped_fold (rs : list BookingRequest.t) :
  forall (m : Map) (done : list BookingRequest.t),
    grouped m done -> grouped (fold_left visit rs m) (done ++ rs).
Proof.
  induction rs as [|r rs IH]; intros m done Hg; simpl.
  - now rewrite app_nil_r.
  - rewrite (cons_middle r done rs), app_assoc.
    apply IH. now apply grouped_visit.
Qed.

(** The map [fetchClients] ends with. *)
Lemma grouped_all (rs : list BookingRequest.t) :
  grouped (fold_left visit rs []) rs.
Proof. apply (grouped_fold rs [] []), grouped_nil. Qed.

(** What holds of every client of the result: it is the entry of its own
    [id], with the tallies of the group of that key. *)
Lemma fetchClients_tallies (rs : list BookingRequest.t) :
  Forall (fun c => tallies (Client.id c) c (group (Client.id c) rs))
         (fetchClients rs).
Proof.
  destruct (grouped_all rs) as (Hnd & _ & Htal).
  apply Forall_forall. intros c Hc.
  destruct (values_get _ c Hnd Hc) as [k Hk].
  pose proof (Htal k c Hk) as Ht.
  assert (Hid : Client.id c = k) by apply Ht. now rewrite Hid.
Qed.

Lemma fetchClients_ids (rs : list BookingRequest.t) :
  map Client.id (fetchClients rs) = keys (fold_left visit rs []).
Proof.
  destruct (grouped_all rs) as (Hnd & _ & Htal).
  apply ids_keys; [exact Hnd|]. intros k c Hk. apply (Htal k c Hk).
Qed.

(** *** The last request *)

Lemma reads_back_elem (rs : list BookingRequest.t) (r : BookingRequest.t) :
  reads_back toString new_Date rs -> r ∈ rs ->
  new_Date (toString (BookingRequest.createdAt r))
  = Some (1000 * (BookingRequest.createdAt r / 1000)).
Proof. unfold reads_back. rewrite Forall_forall. auto. Qed.

Lemma names_latest_first (k : string) (r : BookingRequest.t) :
  names_latest toString (tally (newClient k r) r) [r].
Proof.
  exists r. split; [left|]. split; [|reflexivity].
  unfold ClientsPage.tally, ClientsPage.newClient. simpl.
  now destruct (later _ _).
Qed.

Lemma names_latest_next (c : Client.t) (g : list BookingRequest.t)
    (r : BookingRequest.t) :
  g <> [] ->
  (forall r', r' ∈ g ->
     new_Date (toString (BookingRequest.createdAt r'))
     = Some (1000 * (BookingRequest.createdAt r' / 1000))) ->
  names_latest toString c g ->
  names_latest toString (tally c r) (g ++ [r]).
Proof.
  intros Hne Hback (r0 & Hr0 & Hlast & Hsecond).
  pose proof (later_second (latest g) (BookingRequest.createdAt r)) as Hl.
  unfold names_latest. rewrite latest_snoc by exact Hne.
  unfold ClientsPage.tally. cbn [Client.lastRequest].
  rewrite Hlast, (Hback r0 Hr0). cbn [later]. rewrite Hsecond.
  destruct (BookingRequest.createdAt r >? 1000 * (latest g / 1000)).
  - exists r. split; [apply elem_of_app; right; left|]. split; [reflexivity|].
    exact Hl.
  - exists r0. split; [apply elem_of_app; now left|]. split; [reflexivity|].
    now rewrite Hsecond.
Qed.

Lemma names_latest_fold (k : string) (rs : list BookingRequest.t) :
  forall (m : Map) (done : list BookingRequest.t),
    grouped m done ->
    reads_back toString new_Date (group k (done ++ rs)) ->
    (forall c, get k m = Some c ->
               names_latest toString c (group k done)) ->
    forall c, get k (fold_left visit rs m) = Some c ->
              names_latest toString c (group k (done ++ rs)).
Proof.
  induction rs as [|r rs IH]; intros m done Hg Hback Hin; simpl.
  - rewrite app_nil_r. exact Hin.
  - rewrite (cons_middle r done rs), app_assoc in Hback |- *.
    apply IH; [now apply grouped_visit | exact Hback |].
    destruct Hg as (Hnd & Hkeys & _).
    intros c. unfold ClientsPage.visit.
    change (toLowerCase (BookingRequest.clientEmail r)) with (clientKey r).
    set (k0 := clientKey r). rewrite group_snoc. fold k0.
    assert (Hmine : forall r', r' ∈ group k done ->
              new_Date (toString (BookingRequest.createdAt r'))
              = Some (1000 * (BookingRequest.createdAt r' / 1000))).
    { intros r' Hr'. apply (reads_back_elem _ _ Hback).
      unfold group in *. rewrite !List.filter_app.
      apply elem_of_app. left. apply elem_of_app. now left. }
    destruct (has k0 m) eqn:Hhas.
    + destruct (get k0 m) as [c0|] eqn:Hget;
        [|apply get_None in Hget; apply has_keys in Hhas; contradiction].
      rewrite get_set. destruct (String.eqb_spec k0 k) as [Hk|Hne].
      * intros Hc. injection Hc as <-.
        apply names_latest_next; [|exact Hmine|].
        -- apply has_keys, Hkeys in Hhas as (r' & Hr' & Hk').
           apply (group_not_nil _ _ r'); [exact Hr'|congruence].
        -- apply Hin. now rewrite <- Hk.
      * rewrite app_nil_r. apply Hin.
    + rewrite get_set, String.eqb_refl, set_set, get_set.
      destruct (String.eqb_spec k0 k) as [Hk|Hne].
      * intros Hc. injection Hc as <-. rewrite group_nil.
        -- apply names_latest_first.
        -- intros r' Hr' Hk'.
           assert (Hout : k0 ∉ keys m).
           { intros Hk0. apply has_keys in Hk0. congruence. }
           apply Hout, Hkeys. exists r'. split; [exact Hr'|congruence].
      * rewrite app_nil_r. apply Hin.
Qed.

(** ** The claims *)

(** C8, as the page has it.  Requests are filed under their client email
    in lower case.  The result has exactly one client per key met among
    the fetched requests; its [totalRequests] is the number of requests
    filed under its key and its [requests] are exactly those requests, in
    the order fetched.  When the text of the [createdAt] of each of them
    reads back as the same date to the second, its [lastRequest] is the
    text of one of them created in the second of the latest [createdAt]
    among them: the text has no milliseconds. *)
Theorem fetchClients_groups (rs : list BookingRequest.t) :
  NoDup (map Client.id (fetchClients rs)) /\
  (forall k, k ∈ map Client.id (fetchClients rs) <->
             exists r, r ∈ rs /\ toLowerCase (BookingRequest.clientEmail r) = k) /\
  Forall (fun c =>
            let mine := group (Client.id c) rs in
            Client.totalRequests c = Z.of_nat (length mine) /\
            Client.requests c = mine /\
            (reads_back toString new_Date mine ->
             exists r, r ∈ mine /\
               Client.lastRequest c = toString (BookingRequest.createdAt r) /\
               BookingRequest.createdAt r / 1000 = latest mine / 1000))
         (fetchClients rs).
Proof.
  rewrite fetchClients_ids.
  destruct (grouped_all rs) as (Hnd & Hkeys & Htal).
  split; [exact Hnd|]. split; [exact Hkeys|].
  apply Forall_forall. intros c Hc.
  destruct (values_get _ c Hnd Hc) as [k Hk].
  destruct (Htal k c Hk) as (Hid & Htotal & Hreqs & _). rewrite Hid.
  cbn zeta. split; [exact Htotal|]. split; [exact Hreqs|].
  intros Hback.
  apply (names_latest_fold k rs [] [] grouped_nil Hback); [discriminate|].
  exact Hk.
Qed.

(** C10.  For every client of the result, [completedRequests] is the
    number of its requests whose status is [booked], [totalSpent] is 75
    times [completedRequests], and its requests are those filed under its
    key: a request of any other status adds to neither counter. *)
Theorem fetchClients_spend (rs : list BookingRequest.t) :
  Forall (fun c =>
            Client.requests c = group (Client.id c) rs /\
            Client.completedRequests c
              = Z.of_nat (length (bookedOnes (Client.requests c))) /\
            Client.totalSpent c = 75 * Client.completedRequests c)
         (fetchClients rs).
Proof.
  eapply Forall_impl; [apply fetchClients_tallies|].
  intros c (_ & _ & Hreqs & Hdone & Hspent). simpl.
  rewrite Hreqs. auto.
Qed.

(* ===================================================================== *)
(** ** Further properties of the clients page *)
(* ===================================================================== *)

(** *** Totals *)

Lemma sum_set_present (f : Client.t -> Z) (k : string) (c c' : Client.t)
    (m : Map) :
  get k m = Some c ->
  sum_of f (values (set k c' m)) = sum_of f (values m) - f c + f c'.
Proof.
  unfold sum_of, values.
  induction m as [|[k0 v0] m IH]; simpl; [discriminate|].
  destruct (String.eqb_spec k0 k) as [->|Hne]; simpl.
  - intros H. injection H as ->. lia.
  - intros H. rewrite (IH H). lia.
Qed.

Lemma sum_set_absent (f : Client.t -> Z) (k : string) (c' : Client.t)
    (m : Map) :
  has k m = false ->
  sum_of f (values (set k c' m)) = sum_of f (values m) + f c'.
Proof.
  unfold sum_of, values, has.
  induction m as [|[k0 v0] m IH]; simpl; [lia|].
  destruct (String.eqb_spec k0 k) as [->|Hne]; simpl; [discriminate|].
  intros H. rewrite (IH H). lia.
Qed.

Lemma has_get_None (k : string) (m : Map) :
  has k m = false <-> get k m = None.
Proof.
  rewrite get_None, <- has_keys. destruct (has k m); split; congruence.
Qed.

(** What one request adds to a sum over the clients, when [f] of a new
    client is [0]. *)
Lemma sum_visit (f : Client.t -> Z) (step : BookingRequest.t -> Z) (m : Map)
    (r : BookingRequest.t) :
  (forall k, f (newClient k r) = 0) ->
  (forall c, f (tally c r) = f c + step r) ->
  sum_of f (values (visit m r)) = sum_of f (values m) + step r.
Proof.
  intros Hnew Htally. unfold ClientsPage.visit.
  set (k0 := toLowerCase (BookingRequest.clientEmail r)).
  destruct (has k0 m) eqn:Hhas.
  - destruct (get k0 m) as [c|] eqn:Hget.
    + rewrite (sum_set_present f k0 c _ m Hget), Htally. lia.
    + apply has_get_None in Hget. congruence.
  - rewrite get_set, String.eqb_refl, set_set.
    rewrite (sum_set_absent f k0 _ m Hhas), Htally, Hnew. lia.
Qed.

Lemma sum_fold (f : Client.t -> Z) (step : BookingRequest.t -> Z)
    (rs : list BookingRequest.t) :
  (forall k r, f (newClient k r) = 0) ->
  (forall c r, f (tally c r) = f c + step r) ->
  forall m,
    sum_of f (values (fold_left visit rs m))
    = sum_of f (values m) + fold_right (fun r acc => step r + acc) 0 rs.
Proof.
  intros Hnew Htally. induction rs as [|r rs IH]; intros m; simpl.
  - lia.
  - rewrite IH, (sum_visit f step m r); [lia | auto | auto].
Qed.

Lemma count_ones (rs : list BookingRequest.t) :
  fold_right (fun _ acc => 1 + acc) 0 rs = Z.of_nat (length rs).
Proof. induction rs as [|r rs IH]; simpl length; simpl fold_right; lia. Qed.

Lemma count_booked (rs : list BookingRequest.t) :
  fold_right
    (fun r acc =>
       (if Status_eqb (BookingRequest.status r) booked then 1 else 0) + acc)
    0 rs
  = Z.of_nat (length (bookedOnes rs)).
Proof.
  induction rs as [|r rs IH]; [reflexivity|].
  unfold bookedOnes in *. simpl fold_right. simpl List.filter.
  destruct (Status_eqb _ _); simpl length; lia.
Qed.

(** X17.  No request is lost or counted twice: over the clients of the result
    the [totalRequests] add up to the number of requests fetched. *)
Theorem totalRequests_add_up (rs : list BookingRequest.t) :
  sum_of Client.totalRequests (fetchClients rs) = Z.of_nat (length rs).
Proof.
  unfold ClientsPage.fetchClients.
  rewrite (sum_fold Client.totalRequests (fun _ => 1) rs); simpl.
  - apply count_ones.
  - reflexivity.
  - reflexivity.
Qed.

(** X18.  Over the clients of the result the [completedRequests] add up to the
    number of booked requests fetched, and the [totalSpent] to 75 for each
    of them. *)
Theorem spend_adds_up (rs : list BookingRequest.t) :
  sum_of Client.completedRequests (fetchClients rs)
    = Z.of_nat (length (bookedOnes rs)) /\
  sum_of Client.totalSpent (fetchClients rs)
    = 75 * Z.of_nat (length (bookedOnes rs)).
Proof.
  unfold ClientsPage.fetchClients. split.
  - rewrite (sum_fold Client.completedRequests
               (fun r => if Status_eqb (BookingRequest.status r) booked
                         then 1 else 0) rs); simpl.
    + apply count_booked.
    + reflexivity.
    + intros c r. now destruct (Status_eqb _ _); lia.
  - rewrite (sum_fold Client.totalSpent
               (fun r => 75 * (if Status_eqb (BookingRequest.status r) booked
                               then 1 else 0)) rs); simpl.
    + rewrite <- count_booked.
      induction rs as [|r rs IH]; simpl fold_right; lia.
    + reflexivity.
    + intros c r. destruct (Status_eqb _ _); lia.
Qed.

(** X19.  For every client of the result, [completedRequests] lies between 0 and
    [totalRequests], and [totalRequests] is at least 1: the page never
    shows more completed than requested, nor a client without a request. *)
Theorem completed_within_total (rs : list BookingRequest.t) :
  Forall (fun c =>
            0 <= Client.completedRequests c <= Client.totalRequests c /\
            1 <= Client.totalRequests c)
         (fetchClients rs).
Proof.
  destruct (grouped_all rs) as (Hnd & Hkeys & Htal).
  apply Forall_forall. intros c Hc.
  destruct (values_get _ c Hnd Hc) as [k Hk].
  destruct (Htal k c Hk) as (_ & Htotal & _ & Hdone & _).
  assert (Hne : group k rs <> []).
  { apply get_Some_keys, Hkeys in Hk as (r & Hr & Hkr).
    now apply (group_not_nil _ _ r). }
  rewrite Hdone, Htotal. unfold bookedOnes.
  pose proof (List.filter_length_le
                (fun r => Status_eqb (BookingRequest.status r) booked)
                (group k rs)) as Hle.
  destruct (group k rs); [contradiction|]. simpl length in *. lia.
Qed.

(** *** Whose details a client shows *)

Lemma introduced_by_snoc (c : Client.t) (g : list BookingRequest.t)
    (r : BookingRequest.t) :
  introduced_by c g -> introduced_by (tally c r) (g ++ [r]).
Proof. destruct g as [|r0 g]; [contradiction|]. simpl. auto. Qed.

Lemma introduced_fold (rs : list BookingRequest.t) :
  forall (m : Map) (done : list BookingRequest.t),
    grouped m done ->
    (forall k c, get k m = Some c -> introduced_by c (group k done)) ->
    forall k c, get k (fold_left visit rs m) = Some c ->
                introduced_by c (group k (done ++ rs)).
Proof.
  induction rs as [|r rs IH]; intros m done Hg Hin; simpl.
  - rewrite app_nil_r. exact Hin.
  - rewrite (cons_middle r done rs), app_assoc.
    apply IH; [now apply grouped_visit|].
    destruct Hg as (Hnd & Hkeys & _).
    intros k c. unfold ClientsPage.visit.
    change (toLowerCase (BookingRequest.clientEmail r)) with (clientKey r).
    set (k0 := clientKey r). rewrite group_snoc. fold k0.
    destruct (has k0 m) eqn:Hhas.
    + destruct (get k0 m) as [c0|] eqn:Hget;
        [|apply has_get_None in Hget; congruence].
      rewrite get_set. destruct (String.eqb_spec k0 k) as [<-|Hne].
      * intros Hc. injection Hc as <-.
        apply introduced_by_snoc. now apply Hin.
      * rewrite app_nil_r. apply Hin.
    + rewrite get_set, String.eqb_refl, set_set, get_set.
      destruct (String.eqb_spec k0 k) as [<-|Hne].
      * intros Hc. injection Hc as <-. rewrite group_nil.
        -- simpl. auto.
        -- intros r' Hr' Hk'. apply has_get_None, get_None in Hhas.
           apply Hhas, Hkeys. now exists r'.
      * rewrite app_nil_r. apply Hin.
Qed.

(** X20.  The name, email, phone and notes a client shows are those of the
    first request filed under its key; later requests of the same client
    never change them. *)
Theorem details_of_first_request (rs : list BookingRequest.t) :
  Forall (fun c => introduced_by c (group (Client.id c) rs))
         (fetchClients rs).
Proof.
  destruct (grouped_all rs) as (Hnd & _ & Htal).
  apply Forall_forall. intros c Hc.
  destruct (values_get _ c Hnd Hc) as [k Hk].
  assert (Hid : Client.id c = k) by apply (Htal k c Hk). rewrite Hid.
  apply (introduced_fold rs [] [] grouped_nil); [discriminate|exact Hk].
Qed.

(** *** The order of the clients *)

Lemma filter_both (A : Type) (p q : A -> bool) (l : list A) :
  List.filter p (List.filter q l) = List.filter (fun x => q x && p x)%bool l.
Proof.
  induction l as [|x l IH]; simpl; [reflexivity|].
  destruct (q x); simpl; [destruct (p x)|]; now rewrite IH.
Qed.

Lemma filter_swap (A : Type) (p q : A -> bool) (l : list A) :
  List.filter p (List.filter q l) = List.filter q (List.filter p l).
Proof.
  rewrite !filter_both. apply List.filter_ext. intros x.
  apply Bool.andb_comm.
Qed.

Lemma filter_absorbs (A : Type) (p q : A -> bool) (l : list A) :
  (forall y, p y = true -> q y = true) ->
  List.filter p (List.filter q l) = List.filter p l.
Proof.
  intros H. rewrite filter_both. apply List.filter_ext. intros x.
  specialize (H x). destruct (p x), (q x); try reflexivity.
  now specialize (H eq_refl).
Qed.

Lemma distinct_filter (p : string -> bool) (l : list string) :
  distinct (List.filter p l) = List.filter p (distinct l).
Proof.
  induction l as [|x l IH]; simpl; [reflexivity|].
  destruct (p x) eqn:Hp; simpl.
  - rewrite ?Hp, IH. f_equal. apply filter_swap.
  - rewrite ?Hp, IH. symmetry. apply filter_absorbs.
    intros y Hy. destruct (String.eqb_spec y x) as [->|]; [congruence|].
    reflexivity.
Qed.

Lemma keys_visit (m : Map) (r : BookingRequest.t) :
  keys (visit m r)
  = if has (clientKey r) m then keys m else keys m ++ [clientKey r].
Proof.
  unfold ClientsPage.visit.
  change (toLowerCase (BookingRequest.clientEmail r)) with (clientKey r).
  destruct (has (clientKey r) m) eqn:Hhas.
  - destruct (get (clientKey r) m) eqn:Hget; [|reflexivity].
    now rewrite keys_set, Hhas.
  - now rewrite get_set, String.eqb_refl, set_set, keys_set, Hhas.
Qed.

Lemma has_visit (m : Map) (r : BookingRequest.t) (k : string) :
  has k (visit m r) = (has k m || String.eqb k (clientKey r))%bool.
Proof.
  apply Bool.eq_iff_eq_true.
  rewrite Bool.orb_true_iff, !has_keys, keys_visit, String.eqb_eq.
  destruct (has (clientKey r) m) eqn:Hhas.
  - apply has_keys in Hhas. split; [auto|]. intros [H| ->]; auto.
  - rewrite elem_of_app, elem_of_cons. split; intros [H|H]; auto.
    + destruct H as [H|H]; [auto|]. now apply elem_of_nil in H.
Qed.

Lemma order_fold (rs : list BookingRequest.t) :
  forall m : Map,
    keys (fold_left visit rs m)
    = keys m ++
      distinct (List.filter (fun k => negb (has k m)) (map clientKey rs)).
Proof.
  induction rs as [|r rs IH]; intros m; simpl.
  - now rewrite app_nil_r.
  - rewrite IH, keys_visit.
    rewrite (List.filter_ext _ (fun k => negb (has k m)
                                         && negb (String.eqb k (clientKey r)))%bool)
      by (intros k; rewrite has_visit; apply Bool.negb_orb).
    rewrite <- filter_both, distinct_filter.
    destruct (has (clientKey r) m) eqn:Hhas; simpl.
    + f_equal. rewrite <- distinct_filter. f_equal.
      rewrite filter_swap. apply filter_absorbs. intros k Hk.
      destruct (String.eqb_spec k (clientKey r)) as [->|]; [|reflexivity].
      rewrite Hhas in Hk. discriminate.
    + now rewrite <- app_assoc.
Qed.

(** X21.  The clients are listed in the order in which their first requests
    were fetched: their ids are the distinct keys of the requests, each at
    its first occurrence. *)
Theorem clients_in_order_of_first_request (rs : list BookingRequest.t) :
  map Client.id (fetchClients rs) = distinct (map clientKey rs).
Proof.
  rewrite fetchClients_ids, order_fold. simpl. f_equal.
  induction (map clientKey rs) as [|k ks IH]; simpl; now f_equal.
Qed.

End Dates.

(** *** The page on sample requests *)

(** C8, as stated, fails: the two requests carry two distinct emails, yet
    the result has a single client; its [totalRequests] is 2 while one
    request carries its email, and its [requests] hold both. *)
Lemma fetchClients_merges_spellings :
  map BookingRequest.clientEmail two_spellings
    = ["Ann@x.com"; "ann@x.com"]%string /\
  map (fun c => (Client.email c, Client.totalRequests c,
                 map BookingRequest.id (Client.requests c)))
      (fetchClients toString_1970 new_Date_1970 two_spellings)
    = [("Ann@x.com", 2, ["r1"; "r2"])]%string /\
  map BookingRequest.id (with_email "Ann@x.com" two_spellings)
    = ["r1"%string].
Proof. repeat split. Qed.

(** C8 on three requests of two clients. *)
Example fetchClients_three :
  map (fun c => (Client.id c, Client.totalRequests c,
                 map BookingRequest.id (Client.requests c),
                 Client.lastRequest c))
      (fetchClients toString_1970 new_Date_1970 three_requests)
    = [ ("ann@x.com", 2, ["r1"; "r3"],
         "Thu Jan 01 1970 00:00:05 GMT+0000 (Coordinated Universal Time)");
        ("bob@x.com", 1, ["r2"],
         "Thu Jan 01 1970 00:00:02 GMT+0000 (Coordinated Universal Time)")
      ]%string.
Proof. reflexivity. Qed.

Lemma fetchClients_groups_witness :
  let cs := fetchClients toString_1970 new_Date_1970 three_requests in
  NoDup (map Client.id cs) /\
  (forall k, k ∈ map Client.id cs <->
             exists r, r ∈ three_requests /\
                       toLowerCase (BookingRequest.clientEmail r) = k) /\
  Forall (fun c =>
            let mine := group (Client.id c) three_requests in
            Client.totalRequests c = Z.of_nat (length mine) /\
            Client.requests c = mine /\
            exists r, r ∈ mine /\
              Client.lastRequest c
                = toString_1970 (BookingRequest.createdAt r) /\
              BookingRequest.createdAt r / 1000 = latest mine / 1000)
         cs.
Proof.
  destruct (fetchClients_groups toString_1970 new_Date_1970 three_requests)
    as (Hone & Hkeys & Hall).
  split; [exact Hone|]. split; [exact Hkeys|].
  eapply Forall_impl; [exact Hall|].
  intros c (Htotal & Hreqs & Hlast).
  split; [exact Htotal|]. split; [exact Hreqs|]. apply Hlast.
  unfold reads_back. apply Forall_forall. intros r Hr.
  apply elem_of_group in Hr. unfold three_requests in Hr.
  apply elem_of_cons in Hr as [->|Hr]; [reflexivity|].
  apply elem_of_cons in Hr as [->|Hr]; [reflexivity|].
  apply elem_of_cons in Hr as [->|Hr]; [reflexivity|].
  now apply elem_of_nil in Hr.
Defined.

(** C10 on four requests: one booked out of three for the first client,
    one out of one for the second. *)
Example fetchClients_spend_four :
  map (fun c => (Client.id c, Client.completedRequests c,
                 Client.totalSpent c))
      (fetchClients toString_1970 new_Date_1970
         [ a_request "r1" "ann@x.com" booked 5000;
           a_request "r2" "bob@x.com" booked 2500;
           a_request "r3" "ann@x.com" contacted 3999;
           a_request "r4" "ann@x.com" not_booked 6000 ])
    = [ ("ann@x.com", 1, 75); ("bob@x.com", 1, 75) ]%string.
Proof. reflexivity. Qed.

(** A client who wrote twice, with other details the second time. *)
Example details_of_first_request_twice :
  map (fun c => (Client.name c, Client.email c, Client.notes c))
      (fetchClients toString_1970 new_Date_1970
         [ {| BookingRequest.id := "r1";
              BookingRequest.clientName := "Ann";
              BookingRequest.clientEmail := "Ann@x.com";
              BookingRequest.clientPhone := "1";
              BookingRequest.service := ""; 
              BookingRequest.stylistPreference := "";
              BookingRequest.dateTimePreference := "";
              BookingRequest.notes := Some "first";
              BookingRequest.waitlistOptIn := false;
              BookingRequest.status := pending;
              BookingRequest.salonId := "s1";
              BookingRequest.submittedByProvider := None;
              BookingRequest.providerId := None;
              BookingRequest.providerName := None;
              BookingRequest.createdAt := 1000;
              BookingRequest.updatedAt := 1000 |};
           {| BookingRequest.id := "r2";
              BookingRequest.clientName := "Ann B.";
              BookingRequest.clientEmail := "ann@x.com";
              BookingRequest.clientPhone := "2";
              BookingRequest.service := ""; 
              BookingRequest.stylistPreference := "";
              BookingRequest.dateTimePreference := "";
              BookingRequest.notes := Some "second";
              BookingRequest.waitlistOptIn := false;
              BookingRequest.status := pending;
              BookingRequest.salonId := "s1";
              BookingRequest.submittedByProvider := None;
              BookingRequest.providerId := None;
              BookingRequest.providerName := None;
              BookingRequest.createdAt := 2000;
              BookingRequest.updatedAt := 2000 |} ])
    = [("Ann", "Ann@x.com", "first")]%string.
Proof. reflexivity. Qed.

Example clients_in_order_five :
  map Client.id
      (fetchClients toString_1970 new_Date_1970
         [ a_request "r1" "bob@x.com" pending 1;
           a_request "r2" "Ann@x.com" pending 2;
           a_request "r3" "BOB@x.com" pending 3;
           a_request "r4" "cy@x.com" pending 4;
           a_request "r5" "ann@x.com" pending 5 ])
    = ["bob@x.com"; "ann@x.com"; "cy@x.com"]%string.
Proof. reflexivity. Qed.

(** *** The search box *)

Lemma append_cons (a : ascii) (s t : string) :
  String.append (String a s) t = String a (String.append s t).
Proof. reflexivity. Qed.

Lemma append_nil (t : string) : String.append EmptyString t = t.
Proof. reflexivity. Qed.

Lemma prefix_app (sub s : string) :
  String.prefix sub s = true <-> exists post, s = String.append sub post.
Proof.
  revert s. induction sub as [|a sub IH]; intros s.
  - split; [intros _; now exists s | intros _; now destruct s].
  - setoid_rewrite append_cons. destruct s as [|b s]; simpl.
    + split; [discriminate|]. intros [post H]. discriminate.
    + destruct (Ascii.ascii_dec a b) as [->|Hne].
      * rewrite IH. split; intros [post H]; exists post; congruence.
      * split; [discriminate|]. intros [post H]. congruence.
Qed.

Lemma includes_prefix (s sub : string) :
  String.prefix sub s = true -> includes s sub = true.
Proof. intros H. destruct s; cbn [includes]; now rewrite H. Qed.

Lemma includes_tail (a : ascii) (s sub : string) :
  includes s sub = true -> includes (String a s) sub = true.
Proof. intros H. cbn [includes]. rewrite H. apply Bool.orb_true_r. Qed.

(** [includes] finds exactly the strings that occur between a beginning
    and an end. *)
Lemma includes_app (s sub : string) :
  includes s sub = true <->
  exists pre post, s = String.append pre (String.append sub post).
Proof.
  split.
  - induction s as [|a s IH]; cbn [includes]; intros H;
      apply Bool.orb_true_iff in H as [H|H]; try discriminate.
    + apply prefix_app in H as [post H]. now exists EmptyString, post.
    + apply prefix_app in H as [post H]. now exists EmptyString, post.
    + destruct (IH H) as (pre & post & ->). now exists (String a pre), post.
  - intros (pre & post & ->). induction pre as [|a pre IH].
    + rewrite append_nil. apply includes_prefix, prefix_app. now exists post.
    + rewrite append_cons. now apply includes_tail.
Qed.

Lemma append_assoc (a b c : string) :
  String.append (String.append a b) c = String.append a (String.append b c).
Proof.
  induction a as [|x a IH]; [reflexivity|].
  now rewrite !append_cons, IH.
Qed.

Lemma includes_empty (s : string) : includes s EmptyString = true.
Proof. apply includes_prefix. now destruct s. Qed.

Lemma includes_refl (s : string) : includes s s = true.
Proof.
  apply includes_app. exists EmptyString, EmptyString. rewrite append_nil.
  induction s as [|a s IH]; [reflexivity|]. now rewrite append_cons, <- IH.
Qed.

Lemma includes_trans (s q' q : string) :
  includes s q' = true -> includes q' q = true -> includes s q = true.
Proof.
  rewrite !includes_app.
  intros (p1 & p2 & ->) (r1 & r2 & ->).
  exists (String.append p1 r1), (String.append r2 p2).
  now rewrite !append_assoc.
Qed.

(** X22.  With nothing typed in the search box every client is listed. *)
Theorem filteredClients_empty_query (clients : list Client.t) :
  filteredClients clients EmptyString = clients.
Proof.
  unfold filteredClients. change (toLowerCase "") with EmptyString.
  induction clients as [|c cs IH]; cbn [List.filter]; [reflexivity|].
  rewrite !includes_empty. cbn [orb]. now rewrite IH.
Qed.

(** X23.  Typing more narrows the list: when the query [q] occurs in the
    longer query [q'], as typed and in lower case, searching for [q']
    among the clients found for [q] gives the clients found for [q'] among
    all. *)
Theorem filteredClients_narrows (clients : list Client.t) (q q' : string) :
  includes q' q = true ->
  includes (toLowerCase q') (toLowerCase q) = true ->
  filteredClients (filteredClients clients q) q' = filteredClients clients q'.
Proof.
  intros Hq Hlq. unfold filteredClients. apply filter_absorbs.
  intros c Hc.
  apply Bool.orb_true_iff in Hc as [Hc|Hc];
    [apply Bool.orb_true_iff in Hc as [Hc|Hc]|].
  - now rewrite (includes_trans _ _ _ Hc Hlq).
  - rewrite (includes_trans _ _ _ Hc Hlq). now rewrite Bool.orb_true_r.
  - rewrite (includes_trans _ _ _ Hc Hq). apply Bool.orb_true_r.
Qed.

Lemma filteredClients_narrows_witness :
  filteredClients
    (filteredClients [ann; bob] "n@X") "Ann@X.com"
  = filteredClients [ann; bob] "Ann@X.com".
Proof.
  apply (filteredClients_narrows [ann; bob] "n@X" "Ann@X.com");
    reflexivity.
Defined.

(** X24.  A client is found by its name or its email typed in any letter case,
    and by its phone typed as stored. *)
Theorem filteredClients_finds (clients : list Client.t) (c : Client.t)
    (q : string) :
  c ∈ clients ->
  toLowerCase q = toLowerCase (Client.name c) \/
  toLowerCase q = toLowerCase (Client.email c) \/
  q = Client.phone c ->
  c ∈ filteredClients clients q.
Proof.
  intros Hin Hq. unfold filteredClients.
  apply list_elem_of_In, List.filter_In. split; [now apply list_elem_of_In|].
  destruct Hq as [-> | [-> | ->]]; rewrite includes_refl;
    rewrite ?Bool.orb_true_r; reflexivity.
Qed.

Lemma filteredClients_finds_witness :
  ann ∈ filteredClients [ann; bob] "ANN LEE".
Proof.
  apply (filteredClients_finds [ann; bob] ann "ANN LEE").
  - left.
  - left. reflexivity.
Defined.

End ClientsPageTheory.

(* ===================================================================== *)
(** ** Properties of the booking page *)
(* ===================================================================== *)

Module BookingPageTheory.
Import BookingPage.

Lemma falsy_empty (s : string) : falsy s = true <-> s = EmptyString.
Proof. destruct s; simpl; split; congruence. Qed.

Section Page.

Variables Provider Salon : Type.
Variable provider_id : Provider -> string.
Variable provider_name : Provider -> string.
Variable provider_salonId : Provider -> string.
Variable is_email : string -> bool.

Local Abbreviation handleBookingSubmit :=
  (handleBookingSubmit Provider Salon provider_id provider_name).
Local Abbreviation onSubmit :=
  (onSubmit Provider Salon provider_id provider_name is_email).
Local Abbreviation on_searchParams :=
  (on_searchParams Provider Salon provider_salonId).

(** X25.  [handleBookingSubmit] logs one booking, carrying the form data and the
    selected slot, resets the form and clears the selection exactly when a
    slot is selected and, outside provider mode, email and phone are
    filled in; in every other case it logs nothing and leaves the state as
    it was. *)
Theorem handleBookingSubmit_outcome (st : State Provider Salon)
    (d : BookingFormData) :
  (accepted st d ->
   exists b,
     logged (snd (handleBookingSubmit st d)) = [b] /\
     data b = d /\ Some (slot b) = selectedSlot st /\
     In reset (snd (handleBookingSubmit st d)) /\
     selectedSlot (fst (handleBookingSubmit st d)) = None /\
     isSubmitting (fst (handleBookingSubmit st d)) = false) /\
  (~ accepted st d ->
   logged (snd (handleBookingSubmit st d)) = [] /\
   fst (handleBookingSubmit st d) = st).
Proof.
  unfold accepted, BookingPage.handleBookingSubmit.
  destruct (selectedSlot st) as [chosen|] eqn:Hslot.
  - destruct (isProviderSubmission st) eqn:Hmode; cbn [negb andb].
    + split.
      * intros _. eexists. repeat split. simpl. auto.
      * intros H. destruct H. split; [eauto|now left].
    + destruct (falsy (email d)) eqn:He; cbn [orb].
      * apply falsy_empty in He. split.
        -- intros [_ [H|[H _]]]; [discriminate|contradiction].
        -- intros _. split; reflexivity.
      * destruct (falsy (phone d)) eqn:Hp.
        -- apply falsy_empty in Hp. split.
           ++ intros [_ [H|[_ H]]]; [discriminate|contradiction].
           ++ intros _. split; reflexivity.
        -- split.
           ++ intros _. eexists. repeat split. simpl. auto.
           ++ intros H. destruct H. split; [eauto|]. right.
              split; intros E; apply falsy_empty in E; congruence.
  - split.
    + intros [[x Hx] _]. discriminate.
    + intros _. split; reflexivity.
Qed.

(** X26.  Behind the schema the form accepts nothing with an empty name, email
    or phone, in provider mode too, where the fields are labelled
    optional: such a submission logs nothing and leaves the state as it
    was.  The handler's own alert about required fields therefore never
    shows. *)
Theorem onSubmit_requires_contact (st : State Provider Salon)
    (d : BookingFormData) :
  (name d = EmptyString \/ email d = EmptyString \/ phone d = EmptyString ->
   onSubmit st d = (st, [show_errors])) /\
  ~ In (alert "Please fill in all required fields") (snd (onSubmit st d)).
Proof.
  unfold BookingPage.onSubmit, bookingSchema. split.
  - intros [H|[H|H]]; rewrite H; cbn [falsy negb andb];
      rewrite ?Bool.andb_false_r; reflexivity.
  - destruct (falsy (name d)); cbn [negb andb snd In];
      [intros [H|[]]; discriminate|].
    destruct (is_email (email d)); cbn [negb andb snd In];
      [|intros [H|[]]; discriminate].
    destruct (falsy (email d)) eqn:He; cbn [negb andb snd In];
      [intros [H|[]]; discriminate|].
    destruct (falsy (phone d)) eqn:Hp; cbn [negb andb snd In];
      [intros [H|[]]; discriminate|].
    unfold BookingPage.handleBookingSubmit.
    destruct (selectedSlot st); [|intros []].
    rewrite He, Hp, Bool.andb_false_r. cbn [snd In].
    intros [H|[H|[H|[]]]]; discriminate.
Qed.

(** X27.  After the page has read its address, the provider banner shows exactly
    when the address names a provider (a non-empty [provider] parameter),
    the provider is found and the provider's salon is found. *)
Theorem banner_shown (getProvider : string -> settled Provider)
    (getSalon : string -> settled Salon) (param : option string) :
  banner (fst (on_searchParams getProvider getSalon initial param)) = true <->
  exists providerId p s,
    param = Some providerId /\ providerId <> EmptyString /\
    getProvider providerId = found p /\
    getSalon (provider_salonId p) = found s.
Proof.
  unfold BookingPage.on_searchParams, fetchProviderData, banner.
  destruct param as [providerId|]; cbn.
  - destruct (falsy providerId) eqn:Hf; cbn.
    + apply falsy_empty in Hf. split; [discriminate|].
      intros (x & p & s & Hx & Hne & _). congruence.
    + assert (Hne : providerId <> EmptyString).
      { intros E. apply falsy_empty in E. congruence. }
      destruct (getProvider providerId) as [p| |] eqn:Hp; cbn.
      * destruct (getSalon (provider_salonId p)) as [s| |] eqn:Hs; cbn.
        -- split; [|reflexivity]. intros _. now exists providerId, p, s.
        -- split; [discriminate|].
           intros (x & p' & s & Hx & _ & Hp' & Hs'). congruence.
        -- split; [discriminate|].
           intros (x & p' & s & Hx & _ & Hp' & Hs'). congruence.
      * split; [discriminate|].
        intros (x & p' & s & Hx & _ & Hp' & _). congruence.
      * split; [discriminate|].
        intros (x & p' & s & Hx & _ & Hp' & _). congruence.
  - split; [discriminate|]. intros (x & p & s & Hx & _). discriminate.
Qed.

(** X28.  When the address names a provider that the lookup does not find
    (it settles with [null] rather than throwing), the form stays in
    provider mode without a provider: with a slot chosen it accepts a
    submission without email and phone, and the booking is logged as
    submitted by a provider, with no provider id and no provider name. *)
Theorem unknown_provider_keeps_provider_mode
    (getProvider : string -> settled Provider)
    (getSalon : string -> settled Salon) (providerId : string)
    (chosen : Slot) (d : BookingFormData) :
  providerId <> EmptyString ->
  getProvider providerId = missing ->
  let st := fst (on_searchParams getProvider getSalon initial
                   (Some providerId)) in
  snd (handleBookingSubmit (select st chosen) d)
  = [ console_log {| data := d; slot := chosen;
                     submittedByProvider := true;
                     providerId := None; providerName := None |};
      reset;
      alert "Booking request submitted successfully!" ].
Proof.
  intros Hne Hmiss.
  unfold BookingPage.on_searchParams, fetchProviderData.
  destruct (falsy providerId) eqn:Hf;
    [apply falsy_empty in Hf; contradiction|].
  rewrite Hmiss. reflexivity.
Qed.

(** X29.  When a lookup throws, the form falls back to the regular one: after
    the page has read its address the form is in provider mode exactly
    when the address names a provider and neither the provider lookup nor,
    for a provider found, the salon lookup has thrown. *)
Theorem provider_mode_after_load (getProvider : string -> settled Provider)
    (getSalon : string -> settled Salon) (param : option string) :
  isProviderSubmission
    (fst (on_searchParams getProvider getSalon initial param)) = true <->
  exists providerId,
    param = Some providerId /\ providerId <> EmptyString /\
    getProvider providerId <> thrown /\
    (forall p, getProvider providerId = found p ->
               getSalon (provider_salonId p) <> thrown).
Proof.
  unfold BookingPage.on_searchParams, fetchProviderData.
  destruct param as [providerId|]; cbn.
  - destruct (falsy providerId) eqn:Hf; cbn.
    + apply falsy_empty in Hf. split; [discriminate|].
      intros (x & Hx & Hne & _). congruence.
    + assert (Hne : providerId <> EmptyString).
      { intros E. apply falsy_empty in E. congruence. }
      destruct (getProvider providerId) as [p| |] eqn:Hp; cbn.
      * destruct (getSalon (provider_salonId p)) as [s| |] eqn:Hs; cbn.
        -- split; [|reflexivity]. intros _. exists providerId.
           split; [reflexivity|]. split; [exact Hne|].
           split; [congruence|]. intros p' Hp'. congruence.
        -- split; [|reflexivity]. intros _. exists providerId.
           split; [reflexivity|]. split; [exact Hne|].
           split; [congruence|]. intros p' Hp'. congruence.
        -- split; [discriminate|].
           intros (x & Hx & _ & _ & Hs'). injection Hx as <-.
           now destruct (Hs' p Hp).
      * split; [|reflexivity]. intros _. exists providerId.
        split; [reflexivity|]. split; [exact Hne|].
        split; [congruence|]. intros p' Hp'. congruence.
      * split; [discriminate|].
        intros (x & Hx & _ & Hp' & _). injection Hx as <-. congruence.
  - split; [discriminate|]. intros (x & Hx & _). discriminate.
Qed.

End Page.

(** The handler and the form on the first mock slot. *)
Example handleBookingSubmit_on_haircut :
  let st := select (@initial string string) haircut in
  let submit := handleBookingSubmit string string same same in
  logged (snd (submit st complete))
    = [ {| data := complete; slot := haircut; submittedByProvider := false;
           providerId := None; providerName := None |} ] /\
  snd (submit st name_only) = [alert "Please fill in all required fields"] /\
  snd (submit initial complete) = [] /\
  snd (onSubmit string string same same (fun _ => true) st name_only)
    = [show_errors].
Proof. repeat split. Qed.

Lemma unknown_provider_keeps_provider_mode_witness :
  let st := fst (on_searchParams string string same
                   (fun _ => missing) (fun _ => missing) initial
                   (Some "p9"%string)) in
  snd (handleBookingSubmit string string same same (select st haircut) name_only)
  = [ console_log {| data := name_only; slot := haircut;
                     submittedByProvider := true;
                     providerId := None; providerName := None |};
      reset;
      alert "Booking request submitted successfully!" ].
Proof.
  apply (unknown_provider_keeps_provider_mode string string same same same
           (fun _ => missing) (fun _ => missing) "p9" haircut name_only);
    [discriminate | reflexivity].
Defined.

End BookingPageTheory.
